(** * SceneManager: textures, materials, lights, transforms and the draw script

    A shallow embedding of [Source/SceneManager.cpp].  The class keeps a
    fixed table of sixteen texture entries, a growable list of materials and
    a pointer to the shader manager; every method is a state transformer on
    these.  Collaborators that live outside the file (the shader manager, the
    mesh library, OpenGL, the image decoder, libm) are modelled by what the
    scene manager hands to them. *)

From Stdlib Require Import ZArith QArith String List Lia Bool.
From Stdlib Require Import Floats.SpecFloat.
From stdpp Require Import base list.

Open Scope string_scope.
Open Scope list_scope.
Open Scope Z_scope.

(** ** Single-precision numbers

    [float] is IEEE-754 binary32: 24 bits of precision, largest exponent 128.
    The operations are the correctly rounded ones of [SpecFloat]. *)

Module F32.

Definition prec : Z := 24.
Definition emax : Z := 128.

Definition float : Type := spec_float.

Definition add : float -> float -> float := SFadd prec emax.
Definition sub : float -> float -> float := SFsub prec emax.
Definition mul : float -> float -> float := SFmul prec emax.
Definition div : float -> float -> float := SFdiv prec emax.
Definition sqrt : float -> float := SFsqrt prec emax.
Definition neg : float -> float := SFopp.

(** The value of a decimal literal, rounded once to the format
    ([precision], [emax']): the quotient of numerator by denominator. *)
Definition round_literal (precision emax' : Z) (q : Q) : spec_float :=
  match Qnum q with
  | Z0 => S754_zero false
  | Zpos n =>
      SFdiv precision emax' (S754_finite false n 0) (S754_finite false (Qden q) 0)
  | Zneg n =>
      SFdiv precision emax' (S754_finite true n 0) (S754_finite false (Qden q) 0)
  end.

(** A literal with the [f] suffix, such as [0.35f]. *)
Definition lit (q : Q) : float := round_literal prec emax q.

(** A literal without suffix is a [double] (53 bits, largest exponent 1024);
    stored in a [float] it is rounded a second time. *)
Definition of_double (d : spec_float) : float :=
  match d with
  | S754_finite s m e => binary_round prec emax s m e
  | other => other
  end.

Definition dlit (q : Q) : float := of_double (round_literal 53 1024 q).

(** An [int] argument converted to [float]. *)
Definition of_int (z : Z) : float := binary_normalize prec emax z 0 false.

Definition zero : float := S754_zero false.
Definition one : float := lit 1.

End F32.

Arguments F32.lit q%_Q.
Arguments F32.dlit q%_Q.

Abbreviation float := F32.float.

Declare Scope f32_scope.
Delimit Scope f32_scope with f32.
Infix "+" := F32.add : f32_scope.
Infix "-" := F32.sub : f32_scope.
Infix "*" := F32.mul : f32_scope.
Infix "/" := F32.div : f32_scope.

(** ** GLM vectors and matrices (column major) *)

Record vec2 : Type := Vec2 { v2_x : float; v2_y : float }.
Record vec3 : Type := Vec3 { v3_x : float; v3_y : float; v3_z : float }.
Record vec4 : Type :=
  Vec4 { v4_x : float; v4_y : float; v4_z : float; v4_w : float }.
Record mat4 : Type := Mat4 { col0 : vec4; col1 : vec4; col2 : vec4; col3 : vec4 }.

Module glm.

Definition vec4_scale (v : vec4) (s : float) : vec4 :=
  Vec4 (v4_x v * s)%f32 (v4_y v * s)%f32 (v4_z v * s)%f32 (v4_w v * s)%f32.

Definition vec4_add (a b : vec4) : vec4 :=
  Vec4 (v4_x a + v4_x b)%f32 (v4_y a + v4_y b)%f32
       (v4_z a + v4_z b)%f32 (v4_w a + v4_w b)%f32.

(** [mat4(1.0f)] *)
Definition identity : mat4 :=
  Mat4 (Vec4 F32.one F32.zero F32.zero F32.zero)
       (Vec4 F32.zero F32.one F32.zero F32.zero)
       (Vec4 F32.zero F32.zero F32.one F32.zero)
       (Vec4 F32.zero F32.zero F32.zero F32.one).

(** [operator*(mat4, mat4)]: column [j] of the product is the combination of
    the columns of [m1] weighted by column [j] of [m2], summed left to
    right. *)
Definition mat4_mul_col (m1 : mat4) (b : vec4) : vec4 :=
  vec4_add
    (vec4_add
       (vec4_add (vec4_scale (col0 m1) (v4_x b)) (vec4_scale (col1 m1) (v4_y b)))
       (vec4_scale (col2 m1) (v4_z b)))
    (vec4_scale (col3 m1) (v4_w b)).

Definition mat4_mul (m1 m2 : mat4) : mat4 :=
  Mat4 (mat4_mul_col m1 (col0 m2)) (mat4_mul_col m1 (col1 m2))
       (mat4_mul_col m1 (col2 m2)) (mat4_mul_col m1 (col3 m2)).

(** [glm::radians]: degrees times pi/180, the constant written as a
    [double] literal and cast to [float]. *)
Definition radians (degrees : float) : float :=
  (degrees * F32.dlit 0.01745329251994329576923690768489)%f32.

Definition dot3 (a b : vec3) : float :=
  (v3_x a * v3_x b + v3_y a * v3_y b + v3_z a * v3_z b)%f32.

Definition inversesqrt (x : float) : float := (F32.one / F32.sqrt x)%f32.

Definition normalize (v : vec3) : vec3 :=
  let k := inversesqrt (dot3 v v) in
  Vec3 (v3_x v * k)%f32 (v3_y v * k)%f32 (v3_z v * k)%f32.

(** [glm::scale(v)] is [scale(mat4(1.0f), v)]. *)
Definition scale (v : vec3) : mat4 :=
  let m := identity in
  Mat4 (vec4_scale (col0 m) (v3_x v)) (vec4_scale (col1 m) (v3_y v))
       (vec4_scale (col2 m) (v3_z v)) (col3 m).

(** [glm::translate(v)] is [translate(mat4(1.0f), v)]. *)
Definition translate (v : vec3) : mat4 :=
  let m := identity in
  Mat4 (col0 m) (col1 m) (col2 m)
       (vec4_add
          (vec4_add
             (vec4_add (vec4_scale (col0 m) (v3_x v)) (vec4_scale (col1 m) (v3_y v)))
             (vec4_scale (col2 m) (v3_z v)))
          (col3 m)).

Section Rotate.

(** [cos] and [sin] of the C library at type [float]. *)
Variables cosf sinf : float -> float.

(** [glm::rotate(angle, v)] is [rotate(mat4(1.0f), angle, v)]: the rotation
    about the normalised axis, multiplied into the identity. *)
Definition rotate (angle : float) (v : vec3) : mat4 :=
  let m := identity in
  let c := cosf angle in
  let s := sinf angle in
  let axis := normalize v in
  let k := (F32.one - c)%f32 in
  let temp := Vec3 (k * v3_x axis)%f32 (k * v3_y axis)%f32 (k * v3_z axis)%f32 in
  let r00 := (c + v3_x temp * v3_x axis)%f32 in
  let r01 := (v3_x temp * v3_y axis + s * v3_z axis)%f32 in
  let r02 := (v3_x temp * v3_z axis - s * v3_y axis)%f32 in
  let r10 := (v3_y temp * v3_x axis - s * v3_z axis)%f32 in
  let r11 := (c + v3_y temp * v3_y axis)%f32 in
  let r12 := (v3_y temp * v3_z axis + s * v3_x axis)%f32 in
  let r20 := (v3_z temp * v3_x axis + s * v3_y axis)%f32 in
  let r21 := (v3_z temp * v3_y axis - s * v3_x axis)%f32 in
  let r22 := (c + v3_z temp * v3_z axis)%f32 in
  let comb (a b c' : float) : vec4 :=
    vec4_add (vec4_add (vec4_scale (col0 m) a) (vec4_scale (col1 m) b))
             (vec4_scale (col2 m) c') in
  Mat4 (comb r00 r01 r02) (comb r10 r11 r12) (comb r20 r21 r22) (col3 m).

End Rotate.

End glm.

Declare Scope mat4_scope.
Delimit Scope mat4_scope with mat4.
Infix "*" := glm.mat4_mul : mat4_scope.

(** ** Data model *)

(** One row of the texture table: the tag and the OpenGL texture name. *)
Record TEXTURE_INFO : Type := { tag : string; ID : Z }.

Record OBJECT_MATERIAL : Type := {
  diffuseColor : vec3;
  specularColor : vec3;
  shininess : float;
  material_tag : string
}.

(** What [stbi_load] returns for a readable file. *)
Record Image : Type := {
  width : Z;
  height : Z;
  colorChannels : Z;
  pixels : list Z
}.

(** *** The shader manager

    Modelled from the spec: the class [ShaderManager] is declared outside
    this file; it is the sink that accepts named uniform values to be used
    by the next draw call.  Every [set...Value] call is recorded, newest
    first; the value a draw call sees under a name is the newest one. *)

Inductive uniform : Type :=
| UBool (b : bool)
| UInt (i : Z)
| UFloat (f : float)
| USampler2D (slot : Z)
| UVec2 (v : vec2)
| UVec3 (v : vec3)
| UVec4 (v : vec4)
| UMat4 (m : mat4).

Definition ShaderManager : Type := list (string * uniform).

Fixpoint uniform_value (name : string) (sh : ShaderManager) : option uniform :=
  match sh with
  | [] => None
  | (n, v) :: older => if String.eqb n name then Some v else uniform_value name older
  end.

(** *** The mesh library

    Modelled from the spec: the class [ShapeMeshes] is declared outside this
    file; it offers a load and a draw operation for each of seven shape
    kinds, loading a kind again changes nothing, and a kind is loaded before
    it is drawn. *)

Inductive MeshKind : Type :=
| Plane | Box | Sphere | Cone | Cylinder | TaperedCylinder | Pyramid3.

Definition MeshKind_eqb (a b : MeshKind) : bool :=
  match a, b with
  | Plane, Plane | Box, Box | Sphere, Sphere | Cone, Cone
  | Cylinder, Cylinder | TaperedCylinder, TaperedCylinder
  | Pyramid3, Pyramid3 => true
  | _, _ => false
  end.

Definition ShapeMeshes : Type := list MeshKind.

Definition mesh_loaded (k : MeshKind) (meshes : ShapeMeshes) : bool :=
  existsb (MeshKind_eqb k) meshes.

(** A draw call as the GPU sees it: the shape and the uniforms in force. *)
Record DrawCall : Type := {
  mesh : MeshKind;
  uniforms : option ShaderManager
}.

(** *** OpenGL texture calls

    The calls this file makes, in order, and the next unused texture name
    ([glGenTextures] hands out names that are not in use). *)

Inductive TexFormat : Type := RGB | RGBA.

Inductive GLcall : Type :=
| glGenTextures (name : Z)
| glBindTexture (name : Z)
| glTexParameteri_WRAP_S_REPEAT
| glTexParameteri_WRAP_T_REPEAT
| glTexParameteri_MIN_FILTER_LINEAR
| glTexParameteri_MAG_FILTER_LINEAR
| glTexImage2D (format : TexFormat) (w h : Z) (data : list Z)
| glGenerateMipmap
| glActiveTexture (unit : Z).

Record GL : Type := {
  gl_unused_name : Z;
  gl_calls : list GLcall
}.

(** *** The scene manager and its surroundings *)

Record World : Type := {
  m_pShaderManager : option ShaderManager;   (* [None] is the NULL pointer *)
  m_basicMeshes : ShapeMeshes;
  m_textureIDs : list TEXTURE_INFO;          (* sixteen rows *)
  m_loadedTextures : Z;
  m_objectMaterials : list OBJECT_MATERIAL;
  gl : GL;
  drawn : list DrawCall                      (* oldest first *)
}.

Definition set_pShaderManager (p : option ShaderManager) (w : World) : World :=
  {| m_pShaderManager := p; m_basicMeshes := m_basicMeshes w;
     m_textureIDs := m_textureIDs w; m_loadedTextures := m_loadedTextures w;
     m_objectMaterials := m_objectMaterials w; gl := gl w; drawn := drawn w |}.

Definition set_basicMeshes (m : ShapeMeshes) (w : World) : World :=
  {| m_pShaderManager := m_pShaderManager w; m_basicMeshes := m;
     m_textureIDs := m_textureIDs w; m_loadedTextures := m_loadedTextures w;
     m_objectMaterials := m_objectMaterials w; gl := gl w; drawn := drawn w |}.

Definition set_textures (t : list TEXTURE_INFO) (n : Z) (w : World) : World :=
  {| m_pShaderManager := m_pShaderManager w; m_basicMeshes := m_basicMeshes w;
     m_textureIDs := t; m_loadedTextures := n;
     m_objectMaterials := m_objectMaterials w; gl := gl w; drawn := drawn w |}.

Definition set_objectMaterials (m : list OBJECT_MATERIAL) (w : World) : World :=
  {| m_pShaderManager := m_pShaderManager w; m_basicMeshes := m_basicMeshes w;
     m_textureIDs := m_textureIDs w; m_loadedTextures := m_loadedTextures w;
     m_objectMaterials := m; gl := gl w; drawn := drawn w |}.

Definition set_gl (g : GL) (w : World) : World :=
  {| m_pShaderManager := m_pShaderManager w; m_basicMeshes := m_basicMeshes w;
     m_textureIDs := m_textureIDs w; m_loadedTextures := m_loadedTextures w;
     m_objectMaterials := m_objectMaterials w; gl := g; drawn := drawn w |}.

Definition set_drawn (d : list DrawCall) (w : World) : World :=
  {| m_pShaderManager := m_pShaderManager w; m_basicMeshes := m_basicMeshes w;
     m_textureIDs := m_textureIDs w; m_loadedTextures := m_loadedTextures w;
     m_objectMaterials := m_objectMaterials w; gl := gl w; drawn := d |}.

(** ** Methods as state transformers

    A method either finishes with a result and a new world, or its
    behaviour is undefined (a NULL pointer is dereferenced, the texture
    table is indexed outside its sixteen rows, a mesh is drawn that was
    never loaded). *)

Inductive outcome (A : Type) : Type :=
| Ok (a : A) (w : World)
| Undefined.
Arguments Ok {A} a w.
Arguments Undefined {A}.

Definition M (A : Type) : Type := World -> outcome A.

#[global] Instance M_ret : MRet M := fun A a w => Ok a w.
#[global] Instance M_bind : MBind M := fun A B f m w =>
  match m w with
  | Ok a w' => f a w'
  | Undefined => Undefined
  end.

Definition get : M World := fun w => Ok w w.
Definition put (w : World) : M unit := fun _ => Ok tt w.
Definition undefined {A : Type} : M A := fun _ => Undefined.

(** [for (int i = 0; i < n; i++) body(i)] *)
Fixpoint for_loop (count : nat) (i : Z) (body : Z -> M unit) : M unit :=
  match count with
  | O => mret tt
  | S count' => body i;; for_loop count' (i + 1) body
  end.

Definition for_upto (n : Z) (body : Z -> M unit) : M unit :=
  for_loop (Z.to_nat n) 0 body.

(** *** Calls into the collaborators *)

Definition gl_call (c : GLcall) : M unit := fun w =>
  Ok tt (set_gl {| gl_unused_name := gl_unused_name (gl w);
                   gl_calls := gl_calls (gl w) ++ [c] |} w).

(** [glGenTextures(1, &name)]: a name not handed out before. *)
Definition gl_GenTextures : M Z := fun w =>
  let name := gl_unused_name (gl w) in
  Ok name (set_gl {| gl_unused_name := name + 1;
                     gl_calls := gl_calls (gl w) ++ [glGenTextures name] |} w).

(** [m_pShaderManager->set...Value(name, value)] *)
Definition shader_set (name : string) (value : uniform) : M unit := fun w =>
  match m_pShaderManager w with
  | Some sh => Ok tt (set_pShaderManager (Some ((name, value) :: sh)) w)
  | None => Undefined
  end.

Definition setMat4Value (name : string) (m : mat4) : M unit := shader_set name (UMat4 m).
Definition setVec4Value (name : string) (v : vec4) : M unit := shader_set name (UVec4 v).
Definition setVec3Value (name : string) (v : vec3) : M unit := shader_set name (UVec3 v).
Definition setVec2Value (name : string) (v : vec2) : M unit := shader_set name (UVec2 v).
Definition setFloatValue (name : string) (f : float) : M unit := shader_set name (UFloat f).
Definition setIntValue (name : string) (i : Z) : M unit := shader_set name (UInt i).
Definition setBoolValue (name : string) (b : bool) : M unit := shader_set name (UBool b).
Definition setSampler2DValue (name : string) (slot : Z) : M unit :=
  shader_set name (USampler2D slot).

(** [m_basicMeshes->Load...Mesh()] *)
Definition LoadMesh (k : MeshKind) : M unit := fun w =>
  if mesh_loaded k (m_basicMeshes w) then Ok tt w
  else Ok tt (set_basicMeshes (m_basicMeshes w ++ [k]) w).

(** [m_basicMeshes->Draw...Mesh()] *)
Definition DrawMesh (k : MeshKind) : M unit := fun w =>
  if mesh_loaded k (m_basicMeshes w) then
    Ok tt (set_drawn (drawn w ++ [{| mesh := k; uniforms := m_pShaderManager w |}]) w)
  else Undefined.

(** ** The global names *)

Definition g_ModelName : string := "model".
Definition g_ColorValueName : string := "objectColor".
Definition g_TextureValueName : string := "objectTexture".
Definition g_UseTextureName : string := "bUseTexture".
Definition g_UseLightingName : string := "bUseLighting".

(** ** SceneManager *)

(** [SceneManager(pShaderManager)], in a process whose OpenGL context is
    [g]. *)
Definition SceneManager (pShaderManager : option ShaderManager) (g : GL) : World :=
  {| m_pShaderManager := pShaderManager;
     m_basicMeshes := [];
     m_textureIDs := replicate 16 {| tag := "/0"; ID := -1 |};
     m_loadedTextures := 0;
     m_objectMaterials := [];
     gl := g;
     drawn := [] |}.

(** The row [table[index]]; there is none outside the table. *)
Definition texture_row (table : list TEXTURE_INFO) (index : Z) : option TEXTURE_INFO :=
  if index <? 0 then None else table !! Z.to_nat index.



(** [FindTextureSlot]: the same search, the index instead of the name. *)
Fixpoint FindTextureSlot_loop (table : list TEXTURE_INFO) (tag' : string)
    (remaining : nat) (index : Z) : Z :=
  match remaining with
  | O => -1
  | S remaining' =>
      match texture_row table index with
      | Some row =>
          if String.eqb (tag row) tag' then index
          else FindTextureSlot_loop table tag' remaining' (index + 1)
      | None => -1
      end
  end.

Definition FindTextureSlot (tag' : string) (w : World) : Z :=
  FindTextureSlot_loop (m_textureIDs w) tag' (Z.to_nat (m_loadedTextures w)) 0.

(** [FindMaterial(tag, material)]: [material] is passed by reference; the
    result is the returned flag and the contents of [material] afterwards.
    The loop copies the three values of the first entry whose tag compares
    equal; the flag returned after the loop is the constant [true]. *)
Fixpoint FindMaterial_loop (materials : list OBJECT_MATERIAL) (tag' : string)
    (remaining : nat) (index : nat) (material : OBJECT_MATERIAL) : OBJECT_MATERIAL :=
  match remaining with
  | O => material
  | S remaining' =>
      match materials !! index with
      | Some entry =>
          if String.eqb (material_tag entry) tag' then
            {| diffuseColor := diffuseColor entry;
               specularColor := specularColor entry;
               shininess := shininess entry;
               material_tag := material_tag material |}
          else FindMaterial_loop materials tag' remaining' (S index) material
      | None => material
      end
  end.

Definition FindMaterial (tag' : string) (material : OBJECT_MATERIAL) (w : World)
    : bool * OBJECT_MATERIAL :=
  if (length (m_objectMaterials w) =? 0)%nat then (false, material)
  else
    (true,
     FindMaterial_loop (m_objectMaterials w) tag'
       (length (m_objectMaterials w)) 0%nat material).

Section Methods.

(** The image decoder: what [stbi_load] finds under a file name. *)
Variable stbi_load : string -> option Image.

(** [cos] and [sin] of the C library at type [float]. *)
Variables cosf sinf : float -> float.

(** The contents of a local [OBJECT_MATERIAL] that was declared and not
    assigned. *)
Variable unassigned : OBJECT_MATERIAL.

(** [m_textureIDs[m_loadedTextures] = {tag, textureID}; m_loadedTextures++] *)
Definition register_texture (textureID : Z) (tag' : string) : M unit :=
  w ← get;
  match texture_row (m_textureIDs w) (m_loadedTextures w) with
  | Some _ =>
      put (set_textures
             (<[Z.to_nat (m_loadedTextures w) := {| tag := tag'; ID := textureID |}]>
                (m_textureIDs w))
             (m_loadedTextures w + 1) w)
  | None => undefined
  end.

(** [CreateGLTexture(filename, tag)].  [stbi_load] stands for the decoder
    with vertical flipping switched on.  The lines written to [std::cout]
    and the release of the decoded buffer change nothing in the scene
    manager or in OpenGL and are left out.  The [return false] for an
    unsupported channel count comes after the texture name is generated and
    the four parameters are set, and before anything is registered. *)
Definition CreateGLTexture (filename : string) (tag' : string) : M bool :=
  match stbi_load filename with
  | Some image =>
      textureID ← gl_GenTextures;
      gl_call (glBindTexture textureID);;
      gl_call glTexParameteri_WRAP_S_REPEAT;;
      gl_call glTexParameteri_WRAP_T_REPEAT;;
      gl_call glTexParameteri_MIN_FILTER_LINEAR;;
      gl_call glTexParameteri_MAG_FILTER_LINEAR;;
      uploaded ←
        (if colorChannels image =? 3 then
           gl_call (glTexImage2D RGB (width image) (height image) (pixels image));;
           mret true
         else if colorChannels image =? 4 then
           gl_call (glTexImage2D RGBA (width image) (height image) (pixels image));;
           mret true
         else mret false);
      if uploaded : bool then
        gl_call glGenerateMipmap;;
        gl_call (glBindTexture 0);;
        register_texture textureID tag';;
        mret true
      else mret false
  | None => mret false
  end.

Definition BindGLTextures : M unit :=
  w0 ← get;
  for_upto (m_loadedTextures w0) (fun i =>
    w ← get;
    match texture_row (m_textureIDs w) i with
    | Some row => gl_call (glActiveTexture i);; gl_call (glBindTexture (ID row))
    | None => undefined
    end).

(** The body of the loop is [glGenTextures(1, &m_textureIDs[i].ID)]. *)
Definition DestroyGLTextures : M unit :=
  w0 ← get;
  for_upto (m_loadedTextures w0) (fun i =>
    w ← get;
    match texture_row (m_textureIDs w) i with
    | Some row =>
        name ← gl_GenTextures;
        w' ← get;
        put (set_textures
               (<[Z.to_nat i := {| tag := tag row; ID := name |}]> (m_textureIDs w'))
               (m_loadedTextures w') w')
    | None => undefined
    end).

(** The matrix [SetTransformations] builds: the product is taken left to
    right, as [operator*] associates. *)
Definition modelView (scaleXYZ : vec3)
    (XrotationDegrees YrotationDegrees ZrotationDegrees : float)
    (positionXYZ : vec3) : mat4 :=
  let scale := glm.scale scaleXYZ in
  let rotationX :=
    glm.rotate cosf sinf (glm.radians XrotationDegrees) (Vec3 (F32.lit 1.0) (F32.lit 0.0) (F32.lit 0.0)) in
  let rotationY :=
    glm.rotate cosf sinf (glm.radians YrotationDegrees) (Vec3 (F32.lit 0.0) (F32.lit 1.0) (F32.lit 0.0)) in
  let rotationZ :=
    glm.rotate cosf sinf (glm.radians ZrotationDegrees) (Vec3 (F32.lit 0.0) (F32.lit 0.0) (F32.lit 1.0)) in
  let translation := glm.translate positionXYZ in
  glm.mat4_mul
    (glm.mat4_mul (glm.mat4_mul (glm.mat4_mul translation rotationZ) rotationY) rotationX)
    scale.

Definition SetTransformations (scaleXYZ : vec3)
    (XrotationDegrees YrotationDegrees ZrotationDegrees : float)
    (positionXYZ : vec3) : M unit :=
  w ← get;
  match m_pShaderManager w with
  | Some _ =>
      setMat4Value g_ModelName
        (modelView scaleXYZ XrotationDegrees YrotationDegrees ZrotationDegrees positionXYZ)
  | None => mret tt
  end.

Definition SetShaderColor
    (redColorValue greenColorValue blueColorValue alphaValue : float) : M unit :=
  let currentColor := Vec4 redColorValue greenColorValue blueColorValue alphaValue in
  w ← get;
  match m_pShaderManager w with
  | Some _ =>
      setIntValue g_UseTextureName 0;;
      setVec4Value g_ColorValueName currentColor
  | None => mret tt
  end.

Definition SetShaderTexture (textureTag : string) : M unit :=
  w ← get;
  match m_pShaderManager w with
  | Some _ =>
      setIntValue g_UseTextureName 1;;
      w' ← get;
      let textureID := FindTextureSlot textureTag w' in
      setSampler2DValue g_TextureValueName textureID
  | None => mret tt
  end.

Definition SetTextureUVScale (u v : float) : M unit :=
  w ← get;
  match m_pShaderManager w with
  | Some _ => setVec2Value "UVscale" (Vec2 u v)
  | None => mret tt
  end.

Definition SetShaderMaterial (materialTag : string) : M unit :=
  w ← get;
  if (0 <? length (m_objectMaterials w))%nat then
    let material := unassigned in
    let '(bReturn, material) := FindMaterial materialTag material w in
    if bReturn : bool then
      setVec3Value "material.diffuseColor" (diffuseColor material);;
      setVec3Value "material.specularColor" (specularColor material);;
      setFloatValue "material.shininess" (shininess material)
    else mret tt
  else mret tt.

(** The result of each [CreateGLTexture] is stored in [bReturn] and never
    looked at. *)
Definition LoadSceneTextures : M unit :=
  bReturn ← CreateGLTexture "textures/wood.jpg" "wood";
  bReturn ← CreateGLTexture "textures/ground.jpg" "ground";
  bReturn ← CreateGLTexture "textures/eraser.jpg" "eraser";
  bReturn ← CreateGLTexture "textures/roof.jpg" "roof";
  bReturn ← CreateGLTexture "textures/nightsky.jpg" "nightsky";
  BindGLTextures.

Definition goldMaterial : OBJECT_MATERIAL :=
  {| diffuseColor := Vec3 (F32.lit 0.4) (F32.lit 0.4) (F32.lit 0.4);
     specularColor := Vec3 (F32.lit 0.7) (F32.lit 0.7) (F32.lit 0.6);
     shininess := F32.dlit 52.0;
     material_tag := "metal" |}.

Definition woodMaterial : OBJECT_MATERIAL :=
  {| diffuseColor := Vec3 (F32.lit 0.2) (F32.lit 0.2) (F32.lit 0.3);
     specularColor := Vec3 (F32.lit 0.0) (F32.lit 0.0) (F32.lit 0.0);
     shininess := F32.dlit 0.1;
     material_tag := "wood" |}.

Definition glassMaterial : OBJECT_MATERIAL :=
  {| diffuseColor := Vec3 (F32.lit 0.2) (F32.lit 0.2) (F32.lit 0.2);
     specularColor := Vec3 (F32.lit 1.0) (F32.lit 1.0) (F32.lit 1.0);
     shininess := F32.dlit 95.0;
     material_tag := "glass" |}.

Definition push_back (material : OBJECT_MATERIAL) : M unit :=
  w ← get;
  put (set_objectMaterials (m_objectMaterials w ++ [material]) w).

(** Three materials are filled in; [push_back] is called for the first two.
    The function ends after the tag of [glassMaterial] is assigned. *)
Definition DefineObjectMaterials : M unit :=
  push_back goldMaterial;;
  push_back woodMaterial;;
  let _ := glassMaterial in
  mret tt.

Definition SetupSceneLights : M unit :=
  setBoolValue g_UseLightingName true;;

  setVec3Value "directionalLight.direction"
    (Vec3 (F32.neg (F32.lit 0.1)) (F32.neg (F32.lit 1.0)) (F32.neg (F32.lit 0.1)));;
  setVec3Value "directionalLight.ambient" (Vec3 (F32.lit 0.8) (F32.lit 0.8) (F32.lit 0.8));;
  setVec3Value "directionalLight.diffuse" (Vec3 (F32.lit 1.5) (F32.lit 1.5) (F32.lit 1.5));;
  setVec3Value "directionalLight.specular" (Vec3 (F32.lit 1.5) (F32.lit 1.5) (F32.lit 1.5));;
  setBoolValue "directionalLight.bActive" true;;

  setVec3Value "directionalLight.direction"
    (Vec3 (F32.neg (F32.lit 0.1)) (F32.neg (F32.lit 1.0)) (F32.neg (F32.lit 0.1)));;
  setVec3Value "directionalLight.ambient" (Vec3 (F32.lit 1.08) (F32.lit 1.08) (F32.lit 1.08));;
  setVec3Value "directionalLight.diffuse" (Vec3 (F32.lit 2.25) (F32.lit 2.25) (F32.lit 2.25));;
  setVec3Value "directionalLight.specular" (Vec3 (F32.lit 1.98) (F32.lit 1.98) (F32.lit 1.98));;
  setBoolValue "directionalLight.bActive" true;;

  setVec3Value "pointLights[1].position" (Vec3 (F32.lit 5.0) (F32.lit 5.0) (F32.lit 3.0));;
  setVec3Value "pointLights[1].ambient" (Vec3 (F32.lit 0.08) (F32.lit 0.0) (F32.lit 0.12));;
  setVec3Value "pointLights[1].diffuse" (Vec3 (F32.lit 0.5) (F32.lit 0.1) (F32.lit 0.7));;
  setVec3Value "pointLights[1].specular" (Vec3 (F32.lit 0.7) (F32.lit 0.3) (F32.lit 0.9));;
  setBoolValue "pointLights[1].bActive" true;;

  setVec3Value "pointLights[2].position" (Vec3 (F32.neg (F32.lit 6.0)) (F32.lit 5.0) (F32.lit 2.0));;
  setVec3Value "pointLights[2].ambient" (Vec3 (F32.lit 0.0) (F32.lit 0.05) (F32.lit 0.05));;
  setVec3Value "pointLights[2].diffuse" (Vec3 (F32.lit 0.2) (F32.lit 0.8) (F32.lit 0.5));;
  setVec3Value "pointLights[2].specular" (Vec3 (F32.lit 0.3) (F32.lit 1.0) (F32.lit 0.6));;
  setBoolValue "pointLights[2].bActive" true.

Definition PrepareScene : M unit :=
  LoadSceneTextures;;
  DefineObjectMaterials;;
  SetupSceneLights;;
  LoadMesh Plane;;
  LoadMesh Cylinder;;
  LoadMesh Cone;;
  LoadMesh Box;;
  LoadMesh Sphere;;
  LoadMesh Pyramid3;;
  LoadMesh TaperedCylinder.

Definition RenderScene : M unit :=
  (* the floor *)
  SetTransformations (Vec3 (F32.lit 35.0) (F32.lit 1.0) (F32.lit 15.0))
    (F32.lit 0.0) (F32.lit 0.0) (F32.lit 0.0)
    (Vec3 (F32.lit 0.0) (F32.lit 0.0) (F32.lit 0.0));;
  SetShaderMaterial "wood";;
  SetShaderTexture "ground";;
  SetTextureUVScale (F32.dlit 2.0) (F32.dlit 2.0);;
  DrawMesh Plane;;

  (* the pencil shaft *)
  SetTransformations (Vec3 (F32.lit 0.3) (F32.lit 3.0) (F32.lit 0.3))
    (F32.lit 0.0) (F32.lit 0.0) (F32.lit 90.0)
    (Vec3 (F32.lit 0.5) (F32.lit 1.5) (F32.lit 3.5));;
  SetShaderTexture "wood";;
  SetTextureUVScale (F32.dlit 0.5) (F32.dlit 0.5);;
  SetShaderMaterial "wood";;
  DrawMesh Cylinder;;

  (* the backdrop *)
  SetTransformations (Vec3 (F32.lit 35.0) (F32.lit 15.0) (F32.lit 20.0))
    (F32.neg (F32.lit 90.0)) (F32.lit 0.0) (F32.lit 0.0)
    (Vec3 (F32.lit 0.0) (F32.lit 19.0) (F32.neg (F32.lit 15.0)));;
  SetShaderTexture "nightsky";;
  SetTextureUVScale (F32.of_int 1) (F32.of_int 1);;
  DrawMesh Plane;;

  (* the pencil tip *)
  SetTransformations (Vec3 (F32.lit 0.3) (F32.lit 0.5) (F32.lit 0.3))
    (F32.lit 0.0) (F32.lit 0.0) (F32.lit 90.0)
    (Vec3 (F32.neg (F32.lit 2.5)) (F32.lit 1.5) (F32.lit 3.5));;
  SetShaderMaterial "metal";;
  SetTextureUVScale (F32.of_int 1) (F32.of_int 1);;
  SetShaderColor (F32.lit 0.196) (F32.lit 0.196) (F32.lit 0.196) (F32.lit 1.0);;
  DrawMesh Cone;;

  (* the eraser *)
  SetTransformations (Vec3 (F32.lit 0.3) (F32.lit 0.5) (F32.lit 0.3))
    (F32.lit 0.0) (F32.lit 0.0) (F32.lit 90.0)
    (Vec3 (F32.lit 1.0) (F32.lit 1.5) (F32.lit 3.5));;
  SetShaderTexture "eraser";;
  SetTextureUVScale (F32.dlit 0.5) (F32.dlit 0.5);;
  DrawMesh Cylinder;;

  (* the box *)
  SetTransformations (Vec3 (F32.lit 2.0) (F32.lit 2.0) (F32.lit 2.0))
    (F32.lit 0.0) (F32.lit 66.0) (F32.lit 0.0)
    (Vec3 (F32.neg (F32.lit 7.0)) (F32.lit 1.0) (F32.lit 0.0));;
  SetShaderColor (F32.lit 0.18) (F32.lit 0.45) (F32.lit 0.28) (F32.lit 1.0);;
  DrawMesh Box;;

  (* the roof on the box *)
  SetTransformations (Vec3 (F32.lit 1.0) (F32.lit 2.0) (F32.lit 1.0))
    (F32.lit 0.0) (F32.lit 0.0) (F32.lit 0.0)
    (Vec3 (F32.neg (F32.lit 7.0)) (F32.lit 2.0) (F32.lit 0.0));;
  SetShaderTexture "roof";;
  SetTextureUVScale (F32.dlit 0.5) (F32.dlit 0.5);;
  DrawMesh Cone;;

  (* the sphere *)
  SetTransformations (Vec3 (F32.dlit 2.05) (F32.lit 2.05) (F32.lit 2.05))
    (F32.lit 0.0) (F32.lit 0.0) (F32.lit 0.0)
    (Vec3 (F32.lit 4.0) (F32.lit 2.2) (F32.lit 0.0));;
  SetShaderColor (F32.lit 0.35) (F32.lit 0.55) (F32.lit 0.85) (F32.lit 1.0);;
  DrawMesh Sphere;;

  (* the pyramid *)
  SetTransformations (Vec3 (F32.lit 4.0) (F32.lit 7.0) (F32.lit 4.0))
    (F32.lit 0.0) (F32.lit 25.0) (F32.lit 0.0)
    (Vec3 (F32.lit 9.0) (F32.lit 3.5) (F32.lit 0.0));;
  SetShaderColor (F32.lit 0.74) (F32.lit 0.62) (F32.lit 0.36) (F32.lit 1.0);;
  DrawMesh Pyramid3;;

  (* the tapered cylinder *)
  SetTransformations (Vec3 (F32.lit 1.8) (F32.lit 3.7) (F32.lit 1.8))
    (F32.lit 0.0) (F32.lit 15.0) (F32.lit 0.0)
    (Vec3 (F32.neg (F32.lit 3.0)) (F32.lit 0.75) (F32.neg (F32.lit 2.25)));;
  SetShaderColor (F32.lit 0.65) (F32.lit 0.18) (F32.lit 0.22) (F32.lit 1.0);;
  DrawMesh TaperedCylinder.

End Methods.

(** ** The two states of the scene script

    A scene manager is [Prepared] once [PrepareScene] has run to completion
    on a freshly constructed object; rendering a frame leaves it prepared. *)

Section States.

Variable stbi_load : string -> option Image.
Variables cosf sinf : float -> float.
Variable unassigned : OBJECT_MATERIAL.

Inductive Prepared : World -> Prop :=
| Prepared_by_PrepareScene (p : option ShaderManager) (g : GL) (w : World) :
    PrepareScene stbi_load (SceneManager p g) = Ok tt w ->
    Prepared w
| Prepared_after_RenderScene (w w' : World) :
    Prepared w ->
    RenderScene cosf sinf unassigned w = Ok tt w' ->
    Prepared w'.

End States.

(** What a prepared scene manager holds, whatever the decoder found. *)
Definition all_meshes : ShapeMeshes :=
  [Plane; Cylinder; Cone; Box; Sphere; Pyramid3; TaperedCylinder].

Definition scene_ready (w : World) : Prop :=
  (exists sh, m_pShaderManager w = Some sh) /\
  m_objectMaterials w = [goldMaterial; woodMaterial] /\
  m_basicMeshes w = all_meshes.

(** The part of the world that texture loading leaves alone. *)
Definition scene_part (w : World)
    : option ShaderManager * ShapeMeshes * list OBJECT_MATERIAL * list DrawCall :=
  (m_pShaderManager w, m_basicMeshes w, m_objectMaterials w, drawn w).

(** The value a draw call sees under a uniform name. *)
Definition uniform_at (d : DrawCall) (name : string) : option uniform :=
  match uniforms d with
  | Some sh => uniform_value name sh
  | None => None
  end.

(** The value the draw call number [k] of a frame sees under [name]. *)
Definition step_uniform (steps : list DrawCall) (k : nat) (name : string)
    : option uniform :=
  match steps !! k with
  | Some d => uniform_at d name
  | None => None
  end.

(** Between draw call [k] and the next one, the shader manager received
    values for exactly [names] (newest first) and nothing else. *)
Definition step_adds (steps : list DrawCall) (k : nat) (names : list string) : Prop :=
  exists previous current before after,
    steps !! k = Some previous /\
    steps !! S k = Some current /\
    uniforms previous = Some before /\
    uniforms current = Some after /\
    map fst (take (length names) after) = names /\
    drop (length names) after = before.

(** What [DestroyGLTextures] asks of OpenGL, and the names the loaded rows
    hold afterwards. *)
Definition destroy_calls (w : World) : option (list GLcall * list Z) :=
  match DestroyGLTextures w with
  | Ok _ w' =>
      Some (drop (length (gl_calls (gl w))) (gl_calls (gl w')),
            map ID (take (Z.to_nat (m_loadedTextures w')) (m_textureIDs w')))
  | Undefined => None
  end.

(** The files [LoadSceneTextures] asks the decoder for. *)
Definition scene_texture_files : list string :=
  ["textures/wood.jpg"; "textures/ground.jpg"; "textures/eraser.jpg";
   "textures/roof.jpg"; "textures/nightsky.jpg"].

(** ** A concrete scene, for evaluation *)

Module Sample.

(** Every file decodes to one white RGB pixel. *)
Definition stbi_load (filename : string) : option Image :=
  Some {| width := 1; height := 1; colorChannels := 3; pixels := [255; 255; 255] |}.

(** Every file decodes to one grey pixel with a single channel. *)
Definition stbi_load_grey (filename : string) : option Image :=
  Some {| width := 1; height := 1; colorChannels := 1; pixels := [128] |}.

(** Short polynomials in place of the C library: exact at zero. *)
Definition cosf (x : float) : float := (F32.one - x * x / F32.lit 2)%f32.
Definition sinf (x : float) : float := (x - x * x * x / F32.lit 6)%f32.

Definition unassigned : OBJECT_MATERIAL :=
  {| diffuseColor := Vec3 (F32.lit 9) (F32.lit 9) (F32.lit 9);
     specularColor := Vec3 (F32.lit 9) (F32.lit 9) (F32.lit 9);
     shininess := F32.lit 9;
     material_tag := "" |}.

Definition opengl : GL := {| gl_unused_name := 1; gl_calls := [] |}.

Definition constructed : World := SceneManager (Some []) opengl.

Definition prepared : World :=
  match PrepareScene stbi_load constructed with
  | Ok _ w => w
  | Undefined => constructed
  end.

End Sample.

(** ** Further definitions used to state properties of the methods *)

(** The decoder finds an image under [filename] that [CreateGLTexture] can
    upload: it has 3 or 4 channels. *)
Definition supported (stbi_load : string -> option Image) (filename : string) : bool :=
  match stbi_load filename with
  | Some image => (colorChannels image =? 3) || (colorChannels image =? 4)
  | None => false
  end.

(** The file and the tag of each call in [LoadSceneTextures], in order. *)
Definition scene_textures : list (string * string) :=
  [("textures/wood.jpg", "wood"); ("textures/ground.jpg", "ground");
   ("textures/eraser.jpg", "eraser"); ("textures/roof.jpg", "roof");
   ("textures/nightsky.jpg", "nightsky")].

(** One [glActiveTexture]/[glBindTexture] pair per row, units counted up
    from [unit]. *)
Fixpoint bind_calls (rows : list TEXTURE_INFO) (unit : Z) : list GLcall :=
  match rows with
  | [] => []
  | row :: rest =>
      glActiveTexture unit :: glBindTexture (ID row) :: bind_calls rest (unit + 1)
  end.


(** A scene manager whose sixteen rows are all taken. *)
Definition full_table : World :=
  set_textures (m_textureIDs Sample.constructed) 16 Sample.constructed.

(** A decoder that finds no file. *)
Definition no_files (filename : string) : option Image := None.

(** What [CreateGLTexture] asks of OpenGL before it looks at the channel
    count. *)
Definition calls_before_upload (name : Z) : list GLcall :=
  [glGenTextures name; glBindTexture name;
   glTexParameteri_WRAP_S_REPEAT; glTexParameteri_WRAP_T_REPEAT;
   glTexParameteri_MIN_FILTER_LINEAR; glTexParameteri_MAG_FILTER_LINEAR].

(** The uniforms every draw call of [RenderScene] has set, by itself or by
    an earlier draw call of the same frame. *)
Definition frame_uniforms : list string :=
  ["model"; "bUseTexture"; "objectTexture"; "UVscale";
   "material.diffuseColor"; "material.specularColor"; "material.shininess"].

(** ** Helper lemmas *)

Ltac unfold_M :=
  unfold mbind, M_bind, mret, M_ret, get, put, undefined in *.

Lemma for_loop_invariant (I : World -> Prop) (body : Z -> M unit) :
  (forall i w w', I w -> body i w = Ok tt w' -> I w') ->
  forall count i w w', I w -> for_loop count i body w = Ok tt w' -> I w'.
Proof.
  intros Hbody count.
  induction count as [|count IH]; intros i w w' HI Hrun; simpl in Hrun.
  - unfold_M. congruence.
  - unfold mbind, M_bind in Hrun.
    destruct (body i w) as [[] w1|] eqn:Hstep; [|discriminate].
    eapply IH; [eapply Hbody; eassumption | exact Hrun].
Qed.

Lemma CreateGLTexture_scene_part stbi_load filename tag' b w w' :
  CreateGLTexture stbi_load filename tag' w = Ok b w' ->
  scene_part w' = scene_part w.
Proof.
  unfold CreateGLTexture, register_texture, gl_GenTextures, gl_call.
  unfold_M.
  repeat case_match; intros; simplify_eq; reflexivity.
Qed.

Lemma BindGLTextures_scene_part w w' :
  BindGLTextures w = Ok tt w' -> scene_part w' = scene_part w.
Proof.
  unfold BindGLTextures, for_upto.
  unfold mbind at 1, M_bind at 1, get at 1.
  apply (for_loop_invariant (fun v => scene_part v = scene_part w)); [|reflexivity].
  intros i v v' Hv. unfold gl_call. unfold_M.
  repeat case_match; intros; simplify_eq; unfold scene_part; simpl; congruence.
Qed.

Lemma LoadSceneTextures_scene_part stbi_load w w' :
  LoadSceneTextures stbi_load w = Ok tt w' -> scene_part w' = scene_part w.
Proof.
  unfold LoadSceneTextures, mbind, M_bind.
  destruct (CreateGLTexture stbi_load "textures/wood.jpg" "wood" w)
    as [b1 w1|] eqn:H1; [|discriminate].
  destruct (CreateGLTexture stbi_load "textures/ground.jpg" "ground" w1)
    as [b2 w2|] eqn:H2; [|discriminate].
  destruct (CreateGLTexture stbi_load "textures/eraser.jpg" "eraser" w2)
    as [b3 w3|] eqn:H3; [|discriminate].
  destruct (CreateGLTexture stbi_load "textures/roof.jpg" "roof" w3)
    as [b4 w4|] eqn:H4; [|discriminate].
  destruct (CreateGLTexture stbi_load "textures/nightsky.jpg" "nightsky" w4)
    as [b5 w5|] eqn:H5; [|discriminate].
  intros H6.
  apply CreateGLTexture_scene_part in H1, H2, H3, H4, H5.
  apply BindGLTextures_scene_part in H6.
  congruence.
Qed.

(** Evaluation of the scene script on a world whose tables are known: the
    matrices, the literals and the texture search stay folded. *)
Ltac run_scene :=
  cbv -[modelView FindTextureSlot_loop Z.to_nat app F32.lit F32.dlit F32.of_int F32.neg].
Ltac run_scene_in H :=
  cbv -[modelView FindTextureSlot_loop Z.to_nat app F32.lit F32.dlit F32.of_int F32.neg] in H.

Lemma Ok_world {A : Type} (a b : A) (w w' : World) : Ok a w = Ok b w' -> w' = w.
Proof. intros H. injection H. auto. Qed.

Lemma PrepareScene_scene_ready stbi_load p g w :
  PrepareScene stbi_load (SceneManager p g) = Ok tt w ->
  scene_ready w.
Proof.
  unfold PrepareScene.
  unfold mbind at 1, M_bind at 1.
  destruct (LoadSceneTextures stbi_load (SceneManager p g)) as [[] w1|] eqn:HL;
    [|discriminate].
  apply LoadSceneTextures_scene_part in HL.
  unfold scene_part in HL; simpl in HL.
  injection HL as Hp Hm Hmat Hd.
  destruct w1 as [p1 meshes1 tex1 n1 mats1 g1 d1]; simpl in *; subst.
  destruct p as [sh|]; [|vm_compute; discriminate].
  intros H. vm_compute in H. apply Ok_world in H. subst w.
  split; [eexists; reflexivity|]. split; reflexivity.
Qed.

Lemma RenderScene_keeps_scene_ready cosf sinf unassigned w w' :
  scene_ready w ->
  RenderScene cosf sinf unassigned w = Ok tt w' ->
  scene_ready w'.
Proof.
  intros ([sh Hsh] & Hmat & Hmesh) Hrun.
  destruct w as [p meshes tex n mats g d]; simpl in *; subst.
  run_scene_in Hrun. apply Ok_world in Hrun. subst w'.
  split; [eexists; reflexivity|]. split; reflexivity.
Qed.

Lemma Prepared_scene_ready stbi_load cosf sinf unassigned w :
  Prepared stbi_load cosf sinf unassigned w -> scene_ready w.
Proof.
  induction 1 as [p g w Hprep | w w' _ IH Hrun].
  - eapply PrepareScene_scene_ready; eassumption.
  - eapply RenderScene_keeps_scene_ready; eassumption.
Qed.

Lemma Sample_prepared :
  Prepared Sample.stbi_load Sample.cosf Sample.sinf Sample.unassigned Sample.prepared.
Proof.
  apply Prepared_by_PrepareScene with (p := Some []) (g := Sample.opengl).
  vm_compute. reflexivity.
Defined.

(** The material loop leaves [material] alone when no tag compares equal. *)
Lemma FindMaterial_loop_no_match materials tag' material :
  Forall (fun entry => material_tag entry <> tag') materials ->
  forall remaining index,
    FindMaterial_loop materials tag' remaining index material = material.
Proof.
  intros Hall remaining.
  induction remaining as [|remaining IH]; intros index; simpl; [reflexivity|].
  destruct (materials !! index) as [entry|] eqn:Hentry; [|reflexivity].
  destruct (String.eqb_spec (material_tag entry) tag') as [Heq|Hne].
  - rewrite Forall_forall in Hall.
    exfalso. apply (Hall entry); [|exact Heq].
    eapply list_elem_of_lookup_2. exact Hentry.
  - apply IH.
Qed.

(** ** The material registry *)

(** C4. [FindMaterial] returns [true] whenever the material list is not
    empty, whether or not a tag matched, and [false] when it is empty; when
    no entry's tag equals the given one, the caller's [material] comes back
    with the contents it had before the call. *)
Theorem FindMaterial_flag_is_nonempty (tag' : string) (material : OBJECT_MATERIAL)
    (w : World) :
  (m_objectMaterials w = [] -> fst (FindMaterial tag' material w) = false) /\
  (m_objectMaterials w <> [] -> fst (FindMaterial tag' material w) = true) /\
  (Forall (fun entry => material_tag entry <> tag') (m_objectMaterials w) ->
   snd (FindMaterial tag' material w) = material).
Proof.
  unfold FindMaterial.
  destruct (m_objectMaterials w) as [|first others] eqn:Hreg.
  - simpl. repeat split; intros; try reflexivity. congruence.
  - cbn [length Nat.eqb fst snd].
    repeat split; intros; try reflexivity; try congruence.
    apply (FindMaterial_loop_no_match (first :: others)). assumption.
Qed.

Lemma FindMaterial_flag_is_nonempty_witness :
  fst (FindMaterial "glass" Sample.unassigned Sample.prepared) = true /\
  snd (FindMaterial "glass" Sample.unassigned Sample.prepared) = Sample.unassigned /\
  fst (FindMaterial "glass" Sample.unassigned Sample.constructed) = false.
Proof.
  destruct (FindMaterial_flag_is_nonempty "glass" Sample.unassigned Sample.prepared)
    as (_ & Hflag & Hstale).
  destruct (FindMaterial_flag_is_nonempty "glass" Sample.unassigned Sample.constructed)
    as (Hempty & _ & _).
  split; [apply Hflag; vm_compute; discriminate|].
  split; [|apply Hempty; reflexivity].
  apply Hstale. vm_compute.
  repeat constructor; discriminate.
Defined.

(** ** The texture registry *)

(** C7. When the file decodes and the image has neither 3 nor 4 channels,
    [CreateGLTexture] returns [false], and [m_loadedTextures] and every row
    of [m_textureIDs] are what they were before the call. *)
Theorem CreateGLTexture_unsupported_channels
    (stbi_load : string -> option Image) (filename tag' : string)
    (image : Image) (w : World) :
  stbi_load filename = Some image ->
  colorChannels image <> 3 ->
  colorChannels image <> 4 ->
  exists w',
    CreateGLTexture stbi_load filename tag' w = Ok false w' /\
    m_loadedTextures w' = m_loadedTextures w /\
    m_textureIDs w' = m_textureIDs w.
Proof.
  intros Hfile H3 H4.
  unfold CreateGLTexture. rewrite Hfile.
  apply Z.eqb_neq in H3, H4.
  unfold gl_GenTextures, gl_call. unfold_M.
  rewrite H3, H4. simpl.
  eexists. split; [reflexivity|]. split; reflexivity.
Qed.

Lemma CreateGLTexture_unsupported_channels_witness :
  exists w',
    CreateGLTexture Sample.stbi_load_grey "textures/wood.jpg" "wood" Sample.constructed
      = Ok false w' /\
    m_loadedTextures w' = 0 /\
    m_textureIDs w' = m_textureIDs Sample.constructed.
Proof.
  apply (CreateGLTexture_unsupported_channels Sample.stbi_load_grey
           "textures/wood.jpg" "wood"
           {| width := 1; height := 1; colorChannels := 1; pixels := [128] |}
           Sample.constructed).
  - reflexivity.
  - simpl. lia.
  - simpl. lia.
Defined.

(** A decodable image with 3 or 4 channels takes the next free row. *)
Lemma CreateGLTexture_registers
    (stbi_load : string -> option Image) (filename tag' : string) (image : Image)
    (p : option ShaderManager) (meshes : ShapeMeshes) (tex : list TEXTURE_INFO)
    (n : Z) (mats : list OBJECT_MATERIAL) (g : GL) (d : list DrawCall) :
  stbi_load filename = Some image ->
  colorChannels image = 3 \/ colorChannels image = 4 ->
  0 <= n < Z.of_nat (length tex) ->
  exists g',
    CreateGLTexture stbi_load filename tag'
      {| m_pShaderManager := p; m_basicMeshes := meshes; m_textureIDs := tex;
         m_loadedTextures := n; m_objectMaterials := mats; gl := g; drawn := d |} =
    Ok true
      {| m_pShaderManager := p; m_basicMeshes := meshes;
         m_textureIDs := <[Z.to_nat n := {| tag := tag'; ID := gl_unused_name g |}]> tex;
         m_loadedTextures := n + 1; m_objectMaterials := mats; gl := g'; drawn := d |}.
Proof.
  intros Hfile Hchannels Hroom.
  assert (Hrow : exists row, (if n <? 0 then None else tex !! Z.to_nat n) = Some row).
  { destruct (Z.ltb_spec n 0) as [|_]; [lia|].
    apply lookup_lt_is_Some_2. lia. }
  destruct Hrow as [row Hrow].
  unfold CreateGLTexture. rewrite Hfile.
  destruct g as [name calls].
  destruct Hchannels as [Hc | Hc]; rewrite Hc.
  all: cbv [mbind M_bind mret M_ret get put undefined gl_GenTextures gl_call
            register_texture texture_row set_gl set_textures
            gl gl_unused_name gl_calls m_loadedTextures m_textureIDs
            m_pShaderManager m_basicMeshes m_objectMaterials drawn
            Z.eqb Pos.eqb].
  all: rewrite Hrow; eexists; reflexivity.
Qed.

Ltac load_texture Hfiles :=
  match goal with
  | |- context [CreateGLTexture ?s ?f ?t
                  {| m_pShaderManager := ?p; m_basicMeshes := ?meshes;
                     m_textureIDs := ?tex; m_loadedTextures := ?n;
                     m_objectMaterials := ?mats; gl := ?g; drawn := ?d |}] =>
      let image := fresh "image" in
      let Hfile := fresh "Hfile" in
      let Hchannels := fresh "Hchannels" in
      let g' := fresh "g" in
      let E := fresh "E" in
      destruct (Hfiles f) as (image & Hfile & Hchannels);
      [simpl; tauto|];
      destruct (CreateGLTexture_registers s f t image p meshes tex n mats g d
                  Hfile Hchannels) as [g' E];
      [rewrite ?length_insert, length_replicate; lia|];
      rewrite E; clear E Hfile Hchannels; cbv beta iota
  end.

(** C5. When the five image files decode with 3 or 4 channels,
    [PrepareScene] on a new scene manager leaves exactly five loaded
    textures, tagged "wood", "ground", "eraser", "roof", "nightsky" in this
    order, and [FindTextureSlot] answers 0, 1, 2, 3, 4 for them. *)
Theorem PrepareScene_loads_five_textures
    (stbi_load : string -> option Image) (sh : ShaderManager) (g : GL) :
  (forall filename, In filename scene_texture_files ->
     exists image, stbi_load filename = Some image /\
                   (colorChannels image = 3 \/ colorChannels image = 4)) ->
  exists w',
    PrepareScene stbi_load (SceneManager (Some sh) g) = Ok tt w' /\
    m_loadedTextures w' = 5 /\
    map tag (take (Z.to_nat (m_loadedTextures w')) (m_textureIDs w')) =
      ["wood"; "ground"; "eraser"; "roof"; "nightsky"] /\
    FindTextureSlot "wood" w' = 0 /\
    FindTextureSlot "ground" w' = 1 /\
    FindTextureSlot "eraser" w' = 2 /\
    FindTextureSlot "roof" w' = 3 /\
    FindTextureSlot "nightsky" w' = 4.
Proof.
  intros Hfiles.
  unfold PrepareScene, LoadSceneTextures, SceneManager.
  unfold mbind, M_bind.
  do 5 load_texture Hfiles.
  match goal with
  | |- exists w', ?run = Ok tt w' /\ _ =>
      let result := eval vm_compute in run in
      match result with
      | Ok _ ?w => exists w; split; [vm_compute; reflexivity|]
      end
  end.
  repeat split; vm_compute; reflexivity.
Qed.

Lemma PrepareScene_loads_five_textures_witness :
  exists w',
    PrepareScene Sample.stbi_load Sample.constructed = Ok tt w' /\
    m_loadedTextures w' = 5 /\
    FindTextureSlot "nightsky" w' = 4.
Proof.
  destruct (PrepareScene_loads_five_textures Sample.stbi_load [] Sample.opengl)
    as (w' & Hrun & Hcount & _ & _ & _ & _ & _ & Hslot).
  - intros filename _. eexists. split; [reflexivity|]. left. reflexivity.
  - exists w'. auto.
Defined.

(** C8. The specification has [DestroyGLTextures] release the texture of
    every loaded row.  On the prepared sample scene, whose five rows hold the
    names 1 to 5, the only calls it makes are five [glGenTextures]: five new
    names, 6 to 10, are handed out and written over the stored ones, and no
    call mentions a name from 1 to 5. *)
Theorem DestroyGLTextures_generates_names :
  map ID (take 5 (m_textureIDs Sample.prepared)) = [1; 2; 3; 4; 5] /\
  destroy_calls Sample.prepared =
    Some ([glGenTextures 6; glGenTextures 7; glGenTextures 8;
           glGenTextures 9; glGenTextures 10],
          [6; 7; 8; 9; 10]).
Proof. split; vm_compute; reflexivity. Qed.

(** ** The material list and the shading facade *)

(** C2. The specification has the material list hold "metal", "wood" and
    "glass" after [PrepareScene].  On the sample scene the list holds
    "metal" and "wood" and no entry tagged "glass". *)
Theorem PrepareScene_defines_two_materials :
  exists w,
    PrepareScene Sample.stbi_load Sample.constructed = Ok tt w /\
    map material_tag (m_objectMaterials w) = ["metal"; "wood"] /\
    existsb (fun entry => String.eqb (material_tag entry) "glass")
            (m_objectMaterials w) = false.
Proof.
  exists Sample.prepared.
  split; [vm_compute; reflexivity|].
  split; vm_compute; reflexivity.
Qed.

(** With an empty material list nothing is forwarded. *)
Lemma SetShaderMaterial_empty_list unassigned materialTag w :
  m_objectMaterials w = [] ->
  SetShaderMaterial unassigned materialTag w = Ok tt w.
Proof.
  intros Hempty. unfold SetShaderMaterial. unfold_M.
  rewrite Hempty. reflexivity.
Qed.

(** C3. The specification has [SetShaderMaterial] forward nothing when no
    entry has the given tag.  On the prepared sample scene, whose list holds
    "metal" and "wood", the call with "glass" forwards three values: the
    contents of the local [material], which nothing assigned. *)
Theorem SetShaderMaterial_unmatched_tag_forwards :
  exists sh w',
    m_pShaderManager Sample.prepared = Some sh /\
    SetShaderMaterial Sample.unassigned "glass" Sample.prepared = Ok tt w' /\
    m_pShaderManager w' =
      Some (("material.shininess", UFloat (shininess Sample.unassigned))
            :: ("material.specularColor", UVec3 (specularColor Sample.unassigned))
            :: ("material.diffuseColor", UVec3 (diffuseColor Sample.unassigned))
            :: sh).
Proof.
  eexists. eexists.
  split; [vm_compute; reflexivity|].
  split; vm_compute; reflexivity.
Qed.

(** ** Transformations *)



(** ** Lights *)

(** C9. After [SetupSceneLights] the directional-light names hold the
    values of the second definition, ambient 1.08, diffuse 2.25 and specular
    1.98, which differ from those of the first (0.8, 1.5, 1.5); both
    definitions were written under the same names, the second one later. *)
Theorem SetupSceneLights_second_directional_light_wins
    (sh : ShaderManager) (w : World) :
  m_pShaderManager w = Some sh ->
  exists sh',
    SetupSceneLights w = Ok tt (set_pShaderManager (Some sh') w) /\
    uniform_value "directionalLight.ambient" sh' =
      Some (UVec3 (Vec3 (F32.lit 1.08) (F32.lit 1.08) (F32.lit 1.08))) /\
    uniform_value "directionalLight.diffuse" sh' =
      Some (UVec3 (Vec3 (F32.lit 2.25) (F32.lit 2.25) (F32.lit 2.25))) /\
    uniform_value "directionalLight.specular" sh' =
      Some (UVec3 (Vec3 (F32.lit 1.98) (F32.lit 1.98) (F32.lit 1.98))) /\
    uniform_value "directionalLight.ambient" sh' <>
      Some (UVec3 (Vec3 (F32.lit 0.8) (F32.lit 0.8) (F32.lit 0.8))) /\
    uniform_value "directionalLight.diffuse" sh' <>
      Some (UVec3 (Vec3 (F32.lit 1.5) (F32.lit 1.5) (F32.lit 1.5))) /\
    uniform_value "directionalLight.specular" sh' <>
      Some (UVec3 (Vec3 (F32.lit 1.5) (F32.lit 1.5) (F32.lit 1.5))) /\
    In ("directionalLight.ambient",
        UVec3 (Vec3 (F32.lit 0.8) (F32.lit 0.8) (F32.lit 0.8))) sh' /\
    In ("directionalLight.diffuse",
        UVec3 (Vec3 (F32.lit 1.5) (F32.lit 1.5) (F32.lit 1.5))) sh' /\
    In ("directionalLight.specular",
        UVec3 (Vec3 (F32.lit 1.5) (F32.lit 1.5) (F32.lit 1.5))) sh'.
Proof.
  intros Hsh.
  destruct w as [p meshes tex n mats g d]; simpl in Hsh; subst p.
  eexists. split; [run_scene; reflexivity|].
  repeat split;
    try (vm_compute; reflexivity);
    try (vm_compute; discriminate);
    simpl; repeat (try (left; reflexivity); right).
Qed.

Lemma SetupSceneLights_second_directional_light_wins_witness :
  exists sh',
    SetupSceneLights Sample.constructed =
      Ok tt (set_pShaderManager (Some sh') Sample.constructed) /\
    uniform_value "directionalLight.ambient" sh' =
      Some (UVec3 (Vec3 (F32.lit 1.08) (F32.lit 1.08) (F32.lit 1.08))).
Proof.
  destruct (SetupSceneLights_second_directional_light_wins [] Sample.constructed)
    as (sh' & Hrun & Hambient & _).
  - reflexivity.
  - exists sh'. split; assumption.
Defined.

(** ** The draw script *)

Ltac ready_world Hprepared w :=
  apply Prepared_scene_ready in Hprepared;
  destruct Hprepared as ([?sh ?Hsh] & ?Hmat & ?Hmesh);
  destruct w as [?p ?meshes ?tex ?n ?mats ?g ?d]; simpl in *; subst.

Ltac frame_steps :=
  cbv [drawn]; rewrite <- !app_assoc; reflexivity.

(** C1, amended.  In the prepared state [RenderScene] issues exactly ten
    draw calls: plane (floor), cylinder (pencil shaft), plane (backdrop),
    cone (pencil tip), cylinder (eraser), box, cone (roof), sphere, pyramid,
    tapered cylinder.  The floor is drawn under the matrix built from scale
    (35,1,15), no rotation and position (0,0,0); the sphere is drawn with
    colour (0.35,0.55,0.85,1.0) and the texture flag off. *)
Theorem RenderScene_issues_ten_draws
    (stbi_load : string -> option Image) (cosf sinf : float -> float)
    (unassigned : OBJECT_MATERIAL) (w : World) :
  Prepared stbi_load cosf sinf unassigned w ->
  exists w' steps,
    RenderScene cosf sinf unassigned w = Ok tt w' /\
    drawn w' = drawn w ++ steps /\
    length steps = 10%nat /\
    map mesh steps =
      [Plane; Cylinder; Plane; Cone; Cylinder; Box; Cone; Sphere; Pyramid3;
       TaperedCylinder] /\
    step_uniform steps 0 "model" =
      Some (UMat4 (modelView cosf sinf
                     (Vec3 (F32.lit 35) (F32.lit 1) (F32.lit 15))
                     (F32.lit 0) (F32.lit 0) (F32.lit 0)
                     (Vec3 (F32.lit 0) (F32.lit 0) (F32.lit 0)))) /\
    step_uniform steps 7 "objectColor" =
      Some (UVec4 (Vec4 (F32.lit 0.35) (F32.lit 0.55) (F32.lit 0.85) (F32.lit 1.0))) /\
    step_uniform steps 7 "bUseTexture" = Some (UInt 0).
Proof.
  intros Hprepared. ready_world Hprepared w.
  eexists. eexists.
  split; [run_scene; reflexivity|].
  split; [frame_steps|].
  repeat split; reflexivity.
Qed.

Lemma RenderScene_issues_ten_draws_witness :
  exists w' steps,
    RenderScene Sample.cosf Sample.sinf Sample.unassigned Sample.prepared = Ok tt w' /\
    drawn w' = drawn Sample.prepared ++ steps /\
    length steps = 10%nat.
Proof.
  destruct (RenderScene_issues_ten_draws Sample.stbi_load Sample.cosf Sample.sinf
              Sample.unassigned Sample.prepared Sample_prepared)
    as (w' & steps & Hrun & Hdrawn & Hlength & _).
  exists w', steps. auto.
Defined.

(** C1 with the count of the specification, eleven: the frame drawn from
    the prepared sample scene does not have eleven draw calls. *)
Lemma RenderScene_not_eleven_draws :
  ~ exists w' steps,
      RenderScene Sample.cosf Sample.sinf Sample.unassigned Sample.prepared = Ok tt w' /\
      drawn w' = drawn Sample.prepared ++ steps /\
      length steps = 11%nat.
Proof.
  intros (w' & steps & Hrun & Hdrawn & Hlength).
  vm_compute in Hrun. apply Ok_world in Hrun. subst w'.
  vm_compute in Hdrawn. subst steps.
  discriminate Hlength.
Qed.

(** C10. In a frame, what a step does not set stays as the step before left
    it.  The pencil tip step sets the material (to "metal"); the eraser
    step after it sets the matrix, the texture and the UV scale only, and
    its cylinder is drawn under the "metal" values.  The backdrop step sets
    the matrix, the texture and the UV scale only, and its plane is drawn
    under the "wood" values the steps before it set. *)
Theorem RenderScene_material_persists
    (stbi_load : string -> option Image) (cosf sinf : float -> float)
    (unassigned : OBJECT_MATERIAL) (w : World) :
  Prepared stbi_load cosf sinf unassigned w ->
  exists w' steps,
    RenderScene cosf sinf unassigned w = Ok tt w' /\
    drawn w' = drawn w ++ steps /\
    (* the eraser, draw call 4, after the pencil tip, draw call 3 *)
    option_map mesh (steps !! 4%nat) = Some Cylinder /\
    step_adds steps 2
      ["objectColor"; "bUseTexture"; "UVscale"; "material.shininess";
       "material.specularColor"; "material.diffuseColor"; "model"] /\
    step_adds steps 3 ["UVscale"; "objectTexture"; "bUseTexture"; "model"] /\
    step_uniform steps 4 "material.diffuseColor" =
      Some (UVec3 (diffuseColor goldMaterial)) /\
    step_uniform steps 4 "material.specularColor" =
      Some (UVec3 (specularColor goldMaterial)) /\
    step_uniform steps 4 "material.shininess" =
      Some (UFloat (shininess goldMaterial)) /\
    (* the backdrop, draw call 2, after the pencil shaft, draw call 1 *)
    option_map mesh (steps !! 2%nat) = Some Plane /\
    step_adds steps 1 ["UVscale"; "objectTexture"; "bUseTexture"; "model"] /\
    step_uniform steps 2 "material.diffuseColor" =
      Some (UVec3 (diffuseColor woodMaterial)) /\
    step_uniform steps 2 "material.specularColor" =
      Some (UVec3 (specularColor woodMaterial)) /\
    step_uniform steps 2 "material.shininess" =
      Some (UFloat (shininess woodMaterial)).
Proof.
  intros Hprepared. ready_world Hprepared w.
  eexists. eexists.
  split; [run_scene; reflexivity|].
  split; [frame_steps|].
  unfold step_adds.
  repeat split; try reflexivity.
  all: do 4 eexists; repeat split; reflexivity.
Qed.

Lemma RenderScene_material_persists_witness :
  exists w' steps,
    RenderScene Sample.cosf Sample.sinf Sample.unassigned Sample.prepared = Ok tt w' /\
    drawn w' = drawn Sample.prepared ++ steps /\
    step_uniform steps 4 "material.shininess" = Some (UFloat (F32.dlit 52.0)) /\
    step_uniform steps 2 "material.shininess" = Some (UFloat (F32.dlit 0.1)).
Proof.
  destruct (RenderScene_material_persists Sample.stbi_load Sample.cosf Sample.sinf
              Sample.unassigned Sample.prepared Sample_prepared)
    as (w' & steps & Hrun & Hdrawn & _ & _ & _ & _ & _ & Hmetal & _ & _ & _ & _ & Hwood).
  exists w', steps. auto.
Defined.

(** ** Searching the texture table *)

Lemma texture_row_None_after table i j :
  0 <= i <= j -> texture_row table i = None -> texture_row table j = None.
Proof.
  unfold texture_row. intros Hij.
  destruct (Z.ltb_spec i 0) as [|_]; [lia|].
  destruct (Z.ltb_spec j 0) as [|_]; [lia|].
  intros Hnone. apply lookup_ge_None in Hnone. apply lookup_ge_None. lia.
Qed.

Lemma FindTextureSlot_loop_beyond table tag' remaining index :
  0 <= index -> texture_row table index = None ->
  FindTextureSlot_loop table tag' remaining index = -1.
Proof.
  intros Hindex Hnone. destruct remaining as [|remaining]; simpl; [reflexivity|].
  rewrite Hnone. reflexivity.
Qed.




(** Two tables whose rows carry the same tags over the range searched give
    the same slot. *)
Lemma FindTextureSlot_loop_same_tags table table' tag' remaining :
  forall index, 0 <= index ->
    (forall j, index <= j < index + Z.of_nat remaining ->
       option_map tag (texture_row table j) = option_map tag (texture_row table' j)) ->
    FindTextureSlot_loop table tag' remaining index =
    FindTextureSlot_loop table' tag' remaining index.
Proof.
  induction remaining as [|remaining IH]; intros index Hindex Hsame; simpl;
    [reflexivity|].
  pose proof (Hsame index ltac:(lia)) as Hhere.
  destruct (texture_row table index) as [row|], (texture_row table' index) as [row'|];
    simpl in Hhere; try discriminate; [|reflexivity].
  injection Hhere as ->.
  destruct (String.eqb (tag row') tag'); [reflexivity|].
  apply IH; [lia|]. intros j Hj. apply Hsame. lia.
Qed.

(** The search over [first + second] rows is the search over the first
    ones and, when that finds nothing, the search over the second ones. *)
Lemma FindTextureSlot_loop_split table tag' first second :
  forall index, 0 <= index ->
    FindTextureSlot_loop table tag' (first + second) index =
    if FindTextureSlot_loop table tag' first index =? -1
    then FindTextureSlot_loop table tag' second (index + Z.of_nat first)
    else FindTextureSlot_loop table tag' first index.
Proof.
  induction first as [|first IH]; intros index Hindex.
  - cbn [Nat.add FindTextureSlot_loop Z.eqb Z.of_nat].
    rewrite Z.add_0_r. reflexivity.
  - cbn [Nat.add FindTextureSlot_loop].
    destruct (texture_row table index) as [row|] eqn:Hrow.
    + destruct (String.eqb (tag row) tag').
      * destruct (Z.eqb_spec index (-1)); [lia|reflexivity].
      * rewrite IH by lia.
        replace (index + 1 + Z.of_nat first) with (index + Z.of_nat (S first)) by lia.
        reflexivity.
    + simpl. symmetry. apply FindTextureSlot_loop_beyond; [lia|].
      apply (texture_row_None_after table index); [lia|exact Hrow].
Qed.

Lemma texture_row_insert_same table n row :
  0 <= n < Z.of_nat (length table) ->
  texture_row (<[Z.to_nat n := row]> table) n = Some row.
Proof.
  intros Hn. unfold texture_row.
  destruct (Z.ltb_spec n 0) as [|_]; [lia|].
  apply list_lookup_insert_eq. lia.
Qed.

Lemma texture_row_insert_other table n j row :
  0 <= n -> j <> n ->
  texture_row (<[Z.to_nat n := row]> table) j = texture_row table j.
Proof.
  intros Hn Hj. unfold texture_row.
  destruct (Z.ltb_spec j 0) as [|Hj0]; [reflexivity|].
  apply list_lookup_insert_ne. lia.
Qed.

(** The search after a row was written at position [n] and the count
    became [n + 1]. *)
Lemma FindTextureSlot_after_insert table n row tag' :
  0 <= n < Z.of_nat (length table) ->
  FindTextureSlot_loop (<[Z.to_nat n := row]> table) tag' (Z.to_nat (n + 1)) 0 =
  if FindTextureSlot_loop table tag' (Z.to_nat n) 0 =? -1
  then (if String.eqb (tag row) tag' then n else -1)
  else FindTextureSlot_loop table tag' (Z.to_nat n) 0.
Proof.
  intros Hn.
  replace (Z.to_nat (n + 1)) with (Z.to_nat n + 1)%nat by lia.
  rewrite FindTextureSlot_loop_split by lia.
  rewrite (FindTextureSlot_loop_same_tags (<[Z.to_nat n := row]> table) table
             tag' (Z.to_nat n) 0); [|lia|].
  - destruct (FindTextureSlot_loop table tag' (Z.to_nat n) 0 =? -1); [|reflexivity].
    cbn [FindTextureSlot_loop].
    replace (0 + Z.of_nat (Z.to_nat n)) with n by lia.
    rewrite texture_row_insert_same by lia.
    reflexivity.
  - intros j Hj. rewrite texture_row_insert_other by lia. reflexivity.
Qed.

(** X3. Loading and looking up.  After [CreateGLTexture] has registered an
    image under a tag, [FindTextureSlot] of that tag is the row just
    written when the tag was not loaded before, and the earlier row when it
    was (the first match wins); the slot of every other tag is what it was
    before. *)
Theorem CreateGLTexture_then_FindTextureSlot
    (stbi_load : string -> option Image) (filename tag' : string)
    (image : Image) (w : World) :
  stbi_load filename = Some image ->
  colorChannels image = 3 \/ colorChannels image = 4 ->
  0 <= m_loadedTextures w < Z.of_nat (length (m_textureIDs w)) ->
  exists w',
    CreateGLTexture stbi_load filename tag' w = Ok true w' /\
    FindTextureSlot tag' w' =
      (if FindTextureSlot tag' w =? -1 then m_loadedTextures w
       else FindTextureSlot tag' w) /\
    (forall other, other <> tag' -> FindTextureSlot other w' = FindTextureSlot other w).
Proof.
  intros Hfile Hchannels Hroom.
  destruct w as [p meshes tex n mats g d]; simpl in Hroom.
  destruct (CreateGLTexture_registers stbi_load filename tag' image
              p meshes tex n mats g d Hfile Hchannels Hroom) as [g' Hrun].
  eexists. split; [exact Hrun|].
  unfold FindTextureSlot; cbn [m_textureIDs m_loadedTextures].
  split.
  - rewrite FindTextureSlot_after_insert by lia.
    cbn [tag]. rewrite String.eqb_refl. reflexivity.
  - intros other Hother.
    rewrite FindTextureSlot_after_insert by lia.
    cbn [tag]. apply String.eqb_neq in Hother. rewrite String.eqb_sym, Hother.
    destruct (Z.eqb_spec (FindTextureSlot_loop tex other (Z.to_nat n) 0) (-1));
      congruence.
Qed.

Lemma CreateGLTexture_then_FindTextureSlot_witness :
  exists w',
    CreateGLTexture Sample.stbi_load "textures/extra.jpg" "wood" Sample.prepared
      = Ok true w' /\
    FindTextureSlot "wood" w' = 0 /\
    FindTextureSlot "roof" w' = 3.
Proof.
  destruct (CreateGLTexture_then_FindTextureSlot Sample.stbi_load
              "textures/extra.jpg" "wood"
              {| width := 1; height := 1; colorChannels := 3; pixels := [255; 255; 255] |}
              Sample.prepared) as (w' & Hrun & Hsame & Hother).
  - reflexivity.
  - left. reflexivity.
  - vm_compute. split; [discriminate|reflexivity].
  - exists w'. split; [exact Hrun|]. split.
    + rewrite Hsame. vm_compute. reflexivity.
    + rewrite Hother by discriminate. vm_compute. reflexivity.
Defined.

(** ** Outcomes of [CreateGLTexture] *)

Ltac run_CreateGLTexture :=
  cbv [mbind M_bind mret M_ret get put undefined gl_GenTextures gl_call
       register_texture texture_row set_gl set_textures
       gl gl_unused_name gl_calls m_loadedTextures m_textureIDs
       m_pShaderManager m_basicMeshes m_objectMaterials drawn
       Z.eqb Pos.eqb].

Lemma supported_image stbi_load filename :
  supported stbi_load filename = true ->
  exists image, stbi_load filename = Some image /\
                (colorChannels image = 3 \/ colorChannels image = 4).
Proof.
  unfold supported. destruct (stbi_load filename) as [image|]; [|discriminate].
  intros H. apply orb_true_iff in H. exists image. split; [reflexivity|]. lia.
Qed.

(** X6. The failure path for an unsupported channel count returns after the
    texture object is created: the call consumes an OpenGL texture name and
    leaves that texture bound (no upload, no unbinding), although no row
    of the table is used.  Everything else in the scene manager is as
    before. *)
Theorem CreateGLTexture_unsupported_keeps_texture_bound
    (stbi_load : string -> option Image) (filename tag' : string)
    (image : Image) (w : World) :
  stbi_load filename = Some image ->
  colorChannels image <> 3 ->
  colorChannels image <> 4 ->
  CreateGLTexture stbi_load filename tag' w =
  Ok false
     (set_gl {| gl_unused_name := gl_unused_name (gl w) + 1;
                gl_calls := gl_calls (gl w)
                            ++ calls_before_upload (gl_unused_name (gl w)) |} w).
Proof.
  intros Hfile H3 H4.
  unfold CreateGLTexture. rewrite Hfile.
  apply Z.eqb_neq in H3, H4.
  destruct w as [p meshes tex n mats [name calls] d].
  unfold gl_GenTextures, gl_call. unfold_M. rewrite H3, H4.
  cbv [set_gl gl gl_unused_name gl_calls m_loadedTextures m_textureIDs
       m_pShaderManager m_basicMeshes m_objectMaterials drawn calls_before_upload].
  rewrite <- !app_assoc. reflexivity.
Qed.

Lemma CreateGLTexture_unsupported_keeps_texture_bound_witness :
  exists w',
    CreateGLTexture Sample.stbi_load_grey "textures/wood.jpg" "wood" Sample.constructed
      = Ok false w' /\
    gl_unused_name (gl w') = 2 /\
    last (gl_calls (gl w')) = Some glTexParameteri_MAG_FILTER_LINEAR /\
    In (glBindTexture 1) (gl_calls (gl w')) /\
    ~ In (glBindTexture 0) (gl_calls (gl w')).
Proof.
  eexists. split.
  - apply (CreateGLTexture_unsupported_keeps_texture_bound Sample.stbi_load_grey
             "textures/wood.jpg" "wood"
             {| width := 1; height := 1; colorChannels := 1; pixels := [128] |}).
    + reflexivity.
    + simpl. lia.
    + simpl. lia.
  - split; [reflexivity|]. split; [reflexivity|]. split.
    + simpl. tauto.
    + simpl. intros H. repeat destruct H as [H|H]; try discriminate. exact H.
Defined.

(** An unusable file leaves the scene manager alone; only OpenGL may have
    changed. *)
Lemma CreateGLTexture_skips
    (stbi_load : string -> option Image) (filename tag' : string)
    (p : option ShaderManager) (meshes : ShapeMeshes) (tex : list TEXTURE_INFO)
    (n : Z) (mats : list OBJECT_MATERIAL) (g : GL) (d : list DrawCall) :
  supported stbi_load filename = false ->
  exists g',
    CreateGLTexture stbi_load filename tag'
      {| m_pShaderManager := p; m_basicMeshes := meshes; m_textureIDs := tex;
         m_loadedTextures := n; m_objectMaterials := mats; gl := g; drawn := d |} =
    Ok false
      {| m_pShaderManager := p; m_basicMeshes := meshes; m_textureIDs := tex;
         m_loadedTextures := n; m_objectMaterials := mats; gl := g'; drawn := d |} /\
    (stbi_load filename = None -> g' = g).
Proof.
  unfold supported, CreateGLTexture.
  destruct (stbi_load filename) as [image|].
  - intros H. apply orb_false_iff in H. destruct H as [H3 H4].
    destruct g as [name calls].
    run_CreateGLTexture.
    change (match colorChannels image with 3 => true | _ => false end)
      with (colorChannels image =? 3).
    change (match colorChannels image with 4 => true | _ => false end)
      with (colorChannels image =? 4).
    rewrite H3, H4.
    eexists. split; [reflexivity|discriminate].
  - intros _. exists g. split; reflexivity.
Qed.

(** X4. With a free row, [CreateGLTexture] always returns: it answers
    [true] exactly when the file decodes to an image with 3 or 4 channels,
    [m_loadedTextures] goes up by one in that case and stays otherwise, the
    shader manager, meshes, materials and draw log are never touched, and a
    file that does not decode leaves the whole world, OpenGL included, as it
    was. *)
Theorem CreateGLTexture_outcome
    (stbi_load : string -> option Image) (filename tag' : string) (w : World) :
  0 <= m_loadedTextures w < Z.of_nat (length (m_textureIDs w)) ->
  exists w',
    CreateGLTexture stbi_load filename tag' w = Ok (supported stbi_load filename) w' /\
    m_loadedTextures w' =
      m_loadedTextures w + (if supported stbi_load filename then 1 else 0) /\
    length (m_textureIDs w') = length (m_textureIDs w) /\
    scene_part w' = scene_part w /\
    (stbi_load filename = None -> w' = w).
Proof.
  intros Hroom.
  destruct w as [p meshes tex n mats g d]; simpl in Hroom.
  destruct (supported stbi_load filename) eqn:Hsupported.
  - destruct (supported_image _ _ Hsupported) as (image & Hfile & Hchannels).
    destruct (CreateGLTexture_registers stbi_load filename tag' image
                p meshes tex n mats g d Hfile Hchannels Hroom) as [g' Hrun].
    eexists. split; [exact Hrun|]. simpl.
    split; [reflexivity|]. split; [apply length_insert|].
    split; [reflexivity|]. congruence.
  - destruct (CreateGLTexture_skips stbi_load filename tag'
                p meshes tex n mats g d Hsupported) as (g' & Hrun & Hsame).
    eexists. split; [exact Hrun|]. simpl.
    split; [lia|]. split; [reflexivity|]. split; [reflexivity|].
    intros Hnone. rewrite (Hsame Hnone). reflexivity.
Qed.

Lemma CreateGLTexture_outcome_witness :
  exists w',
    CreateGLTexture no_files "textures/wood.jpg" "wood" Sample.prepared = Ok false w' /\
    m_loadedTextures w' = 5 /\
    w' = Sample.prepared.
Proof.
  destruct (CreateGLTexture_outcome no_files "textures/wood.jpg" "wood" Sample.prepared)
    as (w' & Hrun & Hcount & _ & _ & Hsame).
  - vm_compute. split; [discriminate|reflexivity].
  - exists w'. split; [exact Hrun|]. split; [|apply Hsame; reflexivity].
    rewrite Hcount. vm_compute. reflexivity.
Defined.

(** X5. The table has no bounds check.  When [m_loadedTextures] is not the
    index of a row (all sixteen rows are taken) and the file decodes to a
    usable image, [CreateGLTexture] writes outside [m_textureIDs]: its
    behaviour is undefined. *)
Theorem CreateGLTexture_full_table_undefined
    (stbi_load : string -> option Image) (filename tag' : string) (w : World) :
  supported stbi_load filename = true ->
  Z.of_nat (length (m_textureIDs w)) <= m_loadedTextures w ->
  CreateGLTexture stbi_load filename tag' w = Undefined.
Proof.
  intros Hsupported Hfull.
  destruct (supported_image _ _ Hsupported) as (image & Hfile & Hchannels).
  assert (Hrow : (if m_loadedTextures w <? 0 then None
                  else m_textureIDs w !! Z.to_nat (m_loadedTextures w)) = None).
  { destruct (Z.ltb_spec (m_loadedTextures w) 0); [reflexivity|].
    apply lookup_ge_None. lia. }
  unfold CreateGLTexture. rewrite Hfile.
  destruct w as [p meshes tex n mats [name calls] d].
  cbn [m_loadedTextures m_textureIDs] in Hrow.
  destruct Hchannels as [Hc | Hc]; rewrite Hc.
  all: run_CreateGLTexture; rewrite Hrow; reflexivity.
Qed.

Lemma CreateGLTexture_full_table_undefined_witness :
  m_loadedTextures full_table = 16 /\
  CreateGLTexture Sample.stbi_load "textures/more.jpg" "more" full_table = Undefined.
Proof.
  split; [reflexivity|].
  apply CreateGLTexture_full_table_undefined.
  - reflexivity.
  - vm_compute. discriminate.
Defined.

(** ** The loops over the loaded rows *)

(** A loop whose body keeps an invariant indexed by the counter runs to
    its end. *)
Lemma for_loop_rule (I : Z -> World -> Prop) (body : Z -> M unit) (count : nat) :
  forall i w,
    I i w ->
    (forall j v, i <= j < i + Z.of_nat count -> I j v ->
       exists v', body j v = Ok tt v' /\ I (j + 1) v') ->
    exists w', for_loop count i body w = Ok tt w' /\ I (i + Z.of_nat count) w'.
Proof.
  induction count as [|count IH]; intros i w Hi Hbody.
  - exists w. split; [reflexivity|]. replace (i + Z.of_nat 0) with i by lia. exact Hi.
  - destruct (Hbody i w ltac:(lia) Hi) as (v & Hstep & Hv).
    destruct (IH (i + 1) v Hv) as (w' & Hrun & Hw').
    { intros j u Hj. apply Hbody. lia. }
    exists w'. split.
    + cbn [for_loop]. unfold mbind, M_bind. rewrite Hstep. exact Hrun.
    + replace (i + Z.of_nat (S count)) with (i + 1 + Z.of_nat count) by lia. exact Hw'.
Qed.

Lemma bind_calls_snoc rows row unit :
  bind_calls (rows ++ [row]) unit =
  bind_calls rows unit
  ++ [glActiveTexture (unit + Z.of_nat (length rows)); glBindTexture (ID row)].
Proof.
  revert unit. induction rows as [|first rows IH]; intros unit;
    cbn [bind_calls app length].
  - cbn [Z.of_nat]. rewrite Z.add_0_r. reflexivity.
  - rewrite IH.
    replace (unit + 1 + Z.of_nat (length rows))
      with (unit + Z.of_nat (S (length rows))) by lia.
    reflexivity.
Qed.

(** X7. [BindGLTextures] binds texture unit [i] to the texture of row [i],
    for the loaded rows in index order and for no other row, and changes
    nothing but OpenGL. *)
Theorem BindGLTextures_binds_rows_in_order (w : World) :
  0 <= m_loadedTextures w <= Z.of_nat (length (m_textureIDs w)) ->
  BindGLTextures w =
  Ok tt (set_gl
           {| gl_unused_name := gl_unused_name (gl w);
              gl_calls := gl_calls (gl w)
                          ++ bind_calls (take (Z.to_nat (m_loadedTextures w))
                                              (m_textureIDs w)) 0 |} w).
Proof.
  intros Hcount.
  destruct w as [p meshes tex n mats [name calls] d]; simpl in Hcount.
  unfold BindGLTextures, for_upto. unfold mbind at 1, M_bind at 1, get at 1.
  cbn [m_loadedTextures m_textureIDs gl gl_unused_name gl_calls set_gl
       m_pShaderManager m_basicMeshes m_objectMaterials drawn].
  set (world := fun bound : list GLcall =>
         {| m_pShaderManager := p; m_basicMeshes := meshes; m_textureIDs := tex;
            m_loadedTextures := n; m_objectMaterials := mats;
            gl := {| gl_unused_name := name; gl_calls := calls ++ bound |};
            drawn := d |}).
  destruct (for_loop_rule
              (fun i v => v = world (bind_calls (take (Z.to_nat i) tex) 0))
              (fun i => w ← get;
                        match texture_row (m_textureIDs w) i with
                        | Some row => gl_call (glActiveTexture i);;
                                      gl_call (glBindTexture (ID row))
                        | None => undefined
                        end)
              (Z.to_nat n) 0 (world [])) as (w' & Hrun & Hw').
  - reflexivity.
  - intros j v Hj ->.
    assert (Hrow : exists row, tex !! Z.to_nat j = Some row).
    { apply lookup_lt_is_Some_2. lia. }
    destruct Hrow as [row Hrow].
    exists (world (bind_calls (take (Z.to_nat (j + 1)) tex) 0)). split; [|reflexivity].
    unfold world, gl_call, texture_row. unfold_M.
    cbn [m_loadedTextures m_textureIDs gl gl_unused_name gl_calls set_gl
         m_pShaderManager m_basicMeshes m_objectMaterials drawn].
    destruct (Z.ltb_spec j 0) as [|_]; [lia|].
    rewrite Hrow.
    cbn [m_loadedTextures m_textureIDs gl gl_unused_name gl_calls set_gl
         m_pShaderManager m_basicMeshes m_objectMaterials drawn].
    replace (Z.to_nat (j + 1)) with (S (Z.to_nat j)) by lia.
    rewrite (take_S_r _ _ _ Hrow), bind_calls_snoc.
    rewrite length_take, Nat.min_l by lia.
    rewrite <- !app_assoc. cbn [app].
    replace (0 + Z.of_nat (Z.to_nat j)) with j by lia.
    reflexivity.
  - unfold world in Hrun at 1. rewrite app_nil_r in Hrun.
    rewrite Hrun, Hw'. unfold world.
    replace (Z.to_nat (0 + Z.of_nat (Z.to_nat n))) with (Z.to_nat n) by lia.
    reflexivity.
Qed.

Lemma BindGLTextures_binds_rows_in_order_witness :
  exists w',
    BindGLTextures
      (set_gl {| gl_unused_name := 6; gl_calls := [] |} Sample.prepared) = Ok tt w' /\
    gl_calls (gl w') =
      [glActiveTexture 0; glBindTexture 1; glActiveTexture 1; glBindTexture 2;
       glActiveTexture 2; glBindTexture 3; glActiveTexture 3; glBindTexture 4;
       glActiveTexture 4; glBindTexture 5].
Proof.
  eexists. split.
  - apply BindGLTextures_binds_rows_in_order. vm_compute. split; discriminate.
  - vm_compute. reflexivity.
Defined.

Lemma seqZ_snoc (first count : Z) :
  0 <= count -> seqZ first (count + 1) = seqZ first count ++ [first + count].
Proof.
  intros Hcount. rewrite <- (Z2Nat.id count) by lia.
  generalize (Z.to_nat count) as k. intros k.
  replace (Z.of_nat k + 1) with (Z.of_nat (S k)) by lia.
  apply seqZ_S.
Qed.

(** X8. [DestroyGLTextures] does not clear the table.  For every scene
    manager whose count is within the table it returns, asks OpenGL for one
    new texture name per loaded row and for nothing else, stores the new
    names in the rows, and leaves [m_loadedTextures] and every tag as they
    were: [FindTextureSlot] answers after the call as before it. *)
Theorem DestroyGLTextures_keeps_tags_and_count (w : World) :
  0 <= m_loadedTextures w <= Z.of_nat (length (m_textureIDs w)) ->
  exists w',
    DestroyGLTextures w = Ok tt w' /\
    m_loadedTextures w' = m_loadedTextures w /\
    map tag (m_textureIDs w') = map tag (m_textureIDs w) /\
    map ID (take (Z.to_nat (m_loadedTextures w)) (m_textureIDs w')) =
      seqZ (gl_unused_name (gl w)) (m_loadedTextures w) /\
    gl_calls (gl w') =
      gl_calls (gl w)
      ++ map glGenTextures (seqZ (gl_unused_name (gl w)) (m_loadedTextures w)) /\
    scene_part w' = scene_part w /\
    (forall tag', FindTextureSlot tag' w' = FindTextureSlot tag' w).
Proof.
  intros Hcount.
  destruct w as [p meshes tex n mats [name calls] d]; simpl in Hcount.
  unfold DestroyGLTextures, for_upto. unfold mbind at 1, M_bind at 1, get at 1.
  cbn [m_loadedTextures m_textureIDs gl gl_unused_name gl_calls].
  set (world := fun (i : Z) (rows : list TEXTURE_INFO) =>
         {| m_pShaderManager := p; m_basicMeshes := meshes; m_textureIDs := rows;
            m_loadedTextures := n; m_objectMaterials := mats;
            gl := {| gl_unused_name := name + i;
                     gl_calls := calls ++ map glGenTextures (seqZ name i) |};
            drawn := d |}).
  destruct (for_loop_rule
              (fun i v => exists rows,
                 v = world i rows /\
                 length rows = length tex /\
                 map tag rows = map tag tex /\
                 map ID (take (Z.to_nat i) rows) = seqZ name i)
              (fun i => w ← get;
                        match texture_row (m_textureIDs w) i with
                        | Some row =>
                            name ← gl_GenTextures;
                            w' ← get;
                            put (set_textures
                                   (<[Z.to_nat i := {| tag := tag row; ID := name |}]>
                                      (m_textureIDs w'))
                                   (m_loadedTextures w') w')
                        | None => undefined
                        end)
              (Z.to_nat n) 0 (world 0 tex))
    as (w' & Hrun & rows & -> & Hlength & Htags & Hids).
  - exists tex. repeat split; reflexivity.
  - intros j v Hj (rows & -> & Hlength & Htags & Hids).
    assert (Hrow : exists row, rows !! Z.to_nat j = Some row).
    { apply lookup_lt_is_Some_2. lia. }
    destruct Hrow as [row Hrow].
    exists (world (j + 1) (<[Z.to_nat j := {| tag := tag row; ID := name + j |}]> rows)).
    split.
    + unfold world, gl_GenTextures, texture_row. unfold_M.
      cbn [m_loadedTextures m_textureIDs gl gl_unused_name gl_calls set_gl
           set_textures m_pShaderManager m_basicMeshes m_objectMaterials drawn].
      destruct (Z.ltb_spec j 0) as [|_]; [lia|].
      rewrite Hrow.
      cbn [m_loadedTextures m_textureIDs gl gl_unused_name gl_calls set_gl
           set_textures m_pShaderManager m_basicMeshes m_objectMaterials drawn].
      replace (seqZ name (j + 1)) with (seqZ name j ++ [name + j]).
      * rewrite map_app, app_assoc, Z.add_assoc. reflexivity.
      * symmetry. apply seqZ_snoc. lia.
    + eexists. split; [reflexivity|].
      split; [rewrite length_insert; exact Hlength|].
      split.
      * rewrite <- Htags.
        change (map tag) with (fmap (M:=list) tag).
        rewrite list_fmap_insert. apply list_insert_id.
        rewrite list_lookup_fmap, Hrow. reflexivity.
      * replace (Z.to_nat (j + 1)) with (S (Z.to_nat j)) by lia.
        rewrite (take_S_r _ _ {| tag := tag row; ID := name + j |})
          by (apply list_lookup_insert_eq; lia).
        rewrite take_insert_ge by lia.
        rewrite map_app, Hids. cbn [map ID].
        symmetry. apply seqZ_snoc. lia.
  - replace (0 + Z.of_nat (Z.to_nat n)) with n in * by lia.
    exists (world n rows).
    split.
    { unfold world in Hrun at 1. cbn [seqZ] in Hrun.
      rewrite Z.add_0_r, seqZ_nil, app_nil_r in Hrun by lia. exact Hrun. }
    unfold world. cbn [m_loadedTextures m_textureIDs gl gl_unused_name gl_calls].
    split; [reflexivity|]. split; [exact Htags|]. split; [exact Hids|].
    split; [reflexivity|]. split; [reflexivity|].
    intros tag'. unfold FindTextureSlot. cbn [m_loadedTextures m_textureIDs].
    apply FindTextureSlot_loop_same_tags; [lia|].
    intros j Hj. unfold texture_row.
    destruct (Z.ltb_spec j 0) as [|_]; [reflexivity|].
    change (option_map tag (rows !! Z.to_nat j)) with (tag <$> rows !! Z.to_nat j).
    change (option_map tag (tex !! Z.to_nat j)) with (tag <$> tex !! Z.to_nat j).
    rewrite <- !list_lookup_fmap.
    change (fmap (M:=list) tag) with (map tag). rewrite Htags. reflexivity.
Qed.

Lemma DestroyGLTextures_keeps_tags_and_count_witness :
  exists w',
    DestroyGLTextures Sample.prepared = Ok tt w' /\
    m_loadedTextures w' = 5 /\
    FindTextureSlot "nightsky" w' = 4.
Proof.
  destruct (DestroyGLTextures_keeps_tags_and_count Sample.prepared)
    as (w' & Hrun & Hcount & _ & _ & _ & _ & Hslots).
  - vm_compute. split; discriminate.
  - exists w'. split; [exact Hrun|]. split.
    + rewrite Hcount. vm_compute. reflexivity.
    + rewrite Hslots. vm_compute. reflexivity.
Defined.

(** ** Lookups that miss *)




(** ** [PrepareScene] for every decoder *)

(** X10. [PrepareScene] needs a shader manager: constructed with a NULL
    pointer, the scene manager dereferences it in [SetupSceneLights],
    whatever the image files hold. *)
Theorem PrepareScene_null_shader_manager_undefined
    (stbi_load : string -> option Image) (g : GL) :
  PrepareScene stbi_load (SceneManager None g) = Undefined.
Proof.
  unfold PrepareScene.
  unfold mbind at 1, M_bind at 1.
  destruct (LoadSceneTextures stbi_load (SceneManager None g)) as [[] w1|] eqn:HL;
    [|reflexivity].
  apply LoadSceneTextures_scene_part in HL.
  unfold scene_part in HL; simpl in HL.
  injection HL as Hp Hm Hmat Hd.
  destruct w1 as [p1 meshes1 tex1 n1 mats1 g1 d1]; simpl in *; subst.
  vm_compute. reflexivity.
Qed.

Ltac load_or_skip stbi :=
  match goal with
  | |- context [CreateGLTexture stbi ?f ?t
                  {| m_pShaderManager := ?p; m_basicMeshes := ?meshes;
                     m_textureIDs := ?tex; m_loadedTextures := ?n;
                     m_objectMaterials := ?mats; gl := ?g; drawn := ?d |}] =>
      let Hsupported := fresh "Hsupported" in
      let image := fresh "image" in
      let Hfile := fresh "Hfile" in
      let Hchannels := fresh "Hchannels" in
      let g' := fresh "g" in
      let E := fresh "E" in
      destruct (supported stbi f) eqn:Hsupported;
      [ destruct (supported_image _ _ Hsupported) as (image & Hfile & Hchannels);
        destruct (CreateGLTexture_registers stbi f t image p meshes tex n mats g d
                    Hfile Hchannels) as [g' E];
        [rewrite ?length_insert, length_replicate; lia|];
        rewrite E; clear E Hfile Hchannels image; cbv beta iota
      | destruct (CreateGLTexture_skips stbi f t p meshes tex n mats g d Hsupported)
          as (g' & E & _);
        rewrite E; clear E; cbv beta iota ]
  end.

(** X11. [PrepareScene] never stops on a texture.  For every decoder, on a
    new scene manager with a shader manager, it runs to completion; the
    loaded rows are the tags of the files that decoded with 3 or 4 channels,
    in the order of the calls and without gaps (a file that fails moves the
    later tags down one slot); materials and meshes are set up all the
    same. *)
Theorem PrepareScene_loads_what_decodes
    (stbi_load : string -> option Image) (sh : ShaderManager) (g : GL) :
  let loaded :=
    List.filter (fun file_tag => supported stbi_load (fst file_tag)) scene_textures in
  exists w',
    PrepareScene stbi_load (SceneManager (Some sh) g) = Ok tt w' /\
    m_loadedTextures w' = Z.of_nat (length loaded) /\
    map tag (take (length loaded) (m_textureIDs w')) = map snd loaded /\
    scene_ready w'.
Proof.
  intros loaded. subst loaded.
  unfold PrepareScene, LoadSceneTextures, SceneManager.
  unfold mbind, M_bind.
  cbn [List.filter scene_textures fst].
  do 5 load_or_skip stbi_load.
  all: match goal with
       | |- exists w', ?run = Ok tt w' /\ _ =>
           let result := eval vm_compute in run in
           match result with
           | Ok _ ?w => exists w; split; [vm_compute; reflexivity|]
           end
       end.
  all: split; [vm_compute; reflexivity|].
  all: split; [vm_compute; reflexivity|].
  all: split; [eexists; reflexivity|]; split; vm_compute; reflexivity.
Qed.

(** ** Materials *)

(** The loop stops at the first entry that carries the tag and copies its
    three values. *)
Lemma FindMaterial_loop_first_match before entry after tag' material :
  Forall (fun e => material_tag e <> tag') before ->
  material_tag entry = tag' ->
  forall remaining index,
    (index <= length before)%nat ->
    (length before < index + remaining)%nat ->
    FindMaterial_loop (before ++ entry :: after) tag' remaining index material =
    {| diffuseColor := diffuseColor entry;
       specularColor := specularColor entry;
       shininess := shininess entry;
       material_tag := material_tag material |}.
Proof.
  intros Hbefore Htag remaining.
  induction remaining as [|remaining IH]; intros index Hindex Hreach; [lia|].
  cbn [FindMaterial_loop].
  destruct (Nat.eq_dec index (length before)) as [->|Hne].
  - rewrite list_lookup_middle by reflexivity.
    apply String.eqb_eq in Htag. rewrite Htag. reflexivity.
  - assert (Hlt : (index < length before)%nat) by lia.
    destruct (lookup_lt_is_Some_2 before index Hlt) as [e He].
    rewrite lookup_app_l, He by exact Hlt.
    rewrite Forall_forall in Hbefore.
    assert (Hno : material_tag e <> tag').
    { apply Hbefore. eapply list_elem_of_lookup_2. exact He. }
    apply String.eqb_neq in Hno. rewrite Hno.
    apply IH; lia.
Qed.

Lemma FindMaterial_first_match_flat before entry after tag' material w :
  m_objectMaterials w = before ++ entry :: after ->
  Forall (fun e => material_tag e <> tag') before ->
  material_tag entry = tag' ->
  FindMaterial tag' material w =
  (true, {| diffuseColor := diffuseColor entry;
            specularColor := specularColor entry;
            shininess := shininess entry;
            material_tag := material_tag material |}).
Proof.
  intros Hlist Hbefore Htag. unfold FindMaterial. rewrite Hlist.
  rewrite length_app. cbn [length].
  replace (length before + S (length after) =? 0)%nat with false
    by (symmetry; apply Nat.eqb_neq; lia).
  f_equal. apply FindMaterial_loop_first_match; [assumption|assumption|lia|lia].
Qed.

(** X14. Defining and finding.  After [push_back] of a material,
    [FindMaterial] of its tag yields its three values when no earlier entry
    carries the tag; when an earlier entry does, that entry keeps answering
    (nothing is overwritten and the first match wins), for this and every
    other tag. *)
Theorem push_back_then_FindMaterial
    (added : OBJECT_MATERIAL) (tag' : string) (material : OBJECT_MATERIAL) (w : World) :
  let w' := set_objectMaterials (m_objectMaterials w ++ [added]) w in
  push_back added w = Ok tt w' /\
  (Forall (fun e => material_tag e <> tag') (m_objectMaterials w) ->
   material_tag added = tag' ->
   FindMaterial tag' material w' =
   (true, {| diffuseColor := diffuseColor added;
             specularColor := specularColor added;
             shininess := shininess added;
             material_tag := material_tag material |})) /\
  (forall before entry after,
     m_objectMaterials w = before ++ entry :: after ->
     Forall (fun e => material_tag e <> tag') before ->
     material_tag entry = tag' ->
     FindMaterial tag' material w' = FindMaterial tag' material w).
Proof.
  intros w'. split; [reflexivity|]. split.
  - intros Hnone Htag.
    apply (FindMaterial_first_match_flat (m_objectMaterials w) added []);
      [reflexivity|assumption|assumption].
  - intros before entry after Hlist Hbefore Htag.
    rewrite (FindMaterial_first_match_flat before entry after tag' material w)
      by assumption.
    apply (FindMaterial_first_match_flat before entry (after ++ [added]));
      [|assumption|assumption].
    subst w'. cbn [m_objectMaterials set_objectMaterials].
    rewrite Hlist, <- app_assoc. reflexivity.
Qed.

Lemma push_back_then_FindMaterial_witness :
  FindMaterial "glass" Sample.unassigned
    (set_objectMaterials (m_objectMaterials Sample.prepared ++ [glassMaterial])
       Sample.prepared) =
  (true, {| diffuseColor := diffuseColor glassMaterial;
            specularColor := specularColor glassMaterial;
            shininess := shininess glassMaterial;
            material_tag := "" |}) /\
  FindMaterial "wood" Sample.unassigned
    (set_objectMaterials (m_objectMaterials Sample.prepared ++ [glassMaterial])
       Sample.prepared) =
  FindMaterial "wood" Sample.unassigned Sample.prepared.
Proof.
  split.
  - apply (push_back_then_FindMaterial glassMaterial "glass" Sample.unassigned
             Sample.prepared).
    + vm_compute. repeat constructor; discriminate.
    + reflexivity.
  - apply (push_back_then_FindMaterial glassMaterial "wood" Sample.unassigned
             Sample.prepared) with (before := [goldMaterial]) (entry := woodMaterial)
                                   (after := []).
    + reflexivity.
    + repeat constructor. discriminate.
    + reflexivity.
Defined.

(** X15. When an entry carries the tag, [SetShaderMaterial] forwards the
    diffuse colour, the specular colour and the shininess of the first such
    entry, in this order, whatever the local [material] held before the
    search. *)
Theorem SetShaderMaterial_forwards_first_match
    (unassigned : OBJECT_MATERIAL) (materialTag : string)
    (before : list OBJECT_MATERIAL) (entry : OBJECT_MATERIAL)
    (after : list OBJECT_MATERIAL) (sh : ShaderManager) (w : World) :
  m_pShaderManager w = Some sh ->
  m_objectMaterials w = before ++ entry :: after ->
  Forall (fun e => material_tag e <> materialTag) before ->
  material_tag entry = materialTag ->
  SetShaderMaterial unassigned materialTag w =
  Ok tt (set_pShaderManager
           (Some (("material.shininess", UFloat (shininess entry))
                  :: ("material.specularColor", UVec3 (specularColor entry))
                  :: ("material.diffuseColor", UVec3 (diffuseColor entry))
                  :: sh)) w).
Proof.
  intros Hsh Hlist Hbefore Htag.
  unfold SetShaderMaterial. unfold mbind at 1, M_bind at 1, get at 1.
  rewrite (FindMaterial_first_match_flat before entry after materialTag unassigned w)
    by assumption.
  rewrite Hlist, length_app. cbn [length].
  replace (0 <? length before + S (length after))%nat with true
    by (symmetry; apply Nat.ltb_lt; lia).
  destruct w as [p meshes tex n mats g d]; simpl in Hsh; subst p.
  reflexivity.
Qed.

Lemma SetShaderMaterial_forwards_first_match_witness :
  exists sh w',
    m_pShaderManager Sample.prepared = Some sh /\
    SetShaderMaterial Sample.unassigned "wood" Sample.prepared = Ok tt w' /\
    m_pShaderManager w' =
      Some (("material.shininess", UFloat (F32.dlit 0.1))
            :: ("material.specularColor", UVec3 (specularColor woodMaterial))
            :: ("material.diffuseColor", UVec3 (diffuseColor woodMaterial))
            :: sh).
Proof.
  pose (sh := match m_pShaderManager Sample.prepared with
              | Some sh => sh
              | None => []
              end).
  assert (Hsh : m_pShaderManager Sample.prepared = Some sh) by (vm_compute; reflexivity).
  exists sh. eexists. split; [exact Hsh|]. split.
  - apply (SetShaderMaterial_forwards_first_match Sample.unassigned "wood"
             [goldMaterial] woodMaterial [] sh Sample.prepared Hsh).
    + reflexivity.
    + repeat constructor. discriminate.
    + reflexivity.
  - reflexivity.
Defined.

(** ** Frames *)

(** X12. Rendering reads the registries and never writes them: in the
    prepared state [RenderScene] leaves the texture table, the count, the
    material list, the loaded meshes and OpenGL's texture state as they
    were, and keeps the draw calls of earlier frames. *)
Theorem RenderScene_leaves_registries
    (stbi_load : string -> option Image) (cosf sinf : float -> float)
    (unassigned : OBJECT_MATERIAL) (w : World) :
  Prepared stbi_load cosf sinf unassigned w ->
  exists w',
    RenderScene cosf sinf unassigned w = Ok tt w' /\
    m_textureIDs w' = m_textureIDs w /\
    m_loadedTextures w' = m_loadedTextures w /\
    m_objectMaterials w' = m_objectMaterials w /\
    m_basicMeshes w' = m_basicMeshes w /\
    gl w' = gl w /\
    take (length (drawn w)) (drawn w') = drawn w.
Proof.
  intros Hprepared. ready_world Hprepared w.
  eexists.
  split; [run_scene; reflexivity|].
  repeat (split; [reflexivity|]).
  cbv [drawn]. rewrite <- !app_assoc.
  rewrite take_app_length. reflexivity.
Qed.

Lemma RenderScene_leaves_registries_witness :
  exists w',
    RenderScene Sample.cosf Sample.sinf Sample.unassigned Sample.prepared = Ok tt w' /\
    m_loadedTextures w' = 5 /\
    gl w' = gl Sample.prepared.
Proof.
  destruct (RenderScene_leaves_registries Sample.stbi_load Sample.cosf Sample.sinf
              Sample.unassigned Sample.prepared Sample_prepared)
    as (w' & Hrun & _ & Hcount & _ & _ & Hgl & _).
  exists w'. split; [exact Hrun|]. split; [|exact Hgl].
  rewrite Hcount. vm_compute. reflexivity.
Defined.

(** X16. Which texture each draw call samples.  In the prepared state the
    floor, the pencil shaft, the backdrop, the eraser and the roof are drawn
    with texturing on and the sampler index [FindTextureSlot] gives for
    "ground", "wood", "nightsky", "eraser" and "roof" (-1 for a texture that
    did not load); the pencil tip, the box, the sphere, the pyramid and the
    tapered cylinder are drawn with texturing off. *)
Theorem RenderScene_texture_of_each_draw
    (stbi_load : string -> option Image) (cosf sinf : float -> float)
    (unassigned : OBJECT_MATERIAL) (w : World) :
  Prepared stbi_load cosf sinf unassigned w ->
  exists w' steps,
    RenderScene cosf sinf unassigned w = Ok tt w' /\
    drawn w' = drawn w ++ steps /\
    map (fun k => step_uniform steps k "bUseTexture") (seq 0 10) =
      map (fun on => Some (UInt on)) [1; 1; 1; 0; 1; 0; 1; 0; 0; 0] /\
    step_uniform steps 0 "objectTexture" = Some (USampler2D (FindTextureSlot "ground" w)) /\
    step_uniform steps 1 "objectTexture" = Some (USampler2D (FindTextureSlot "wood" w)) /\
    step_uniform steps 2 "objectTexture" = Some (USampler2D (FindTextureSlot "nightsky" w)) /\
    step_uniform steps 4 "objectTexture" = Some (USampler2D (FindTextureSlot "eraser" w)) /\
    step_uniform steps 6 "objectTexture" = Some (USampler2D (FindTextureSlot "roof" w)).
Proof.
  intros Hprepared. ready_world Hprepared w.
  eexists. eexists.
  split; [run_scene; reflexivity|].
  split; [frame_steps|].
  repeat split; reflexivity.
Qed.

Lemma RenderScene_texture_of_each_draw_witness :
  exists w' steps,
    RenderScene Sample.cosf Sample.sinf Sample.unassigned Sample.prepared = Ok tt w' /\
    drawn w' = drawn Sample.prepared ++ steps /\
    step_uniform steps 2 "objectTexture" = Some (USampler2D 4).
Proof.
  destruct (RenderScene_texture_of_each_draw Sample.stbi_load Sample.cosf Sample.sinf
              Sample.unassigned Sample.prepared Sample_prepared)
    as (w' & steps & Hrun & Hdrawn & _ & _ & _ & Hsky & _).
  exists w', steps. split; [exact Hrun|]. split; [exact Hdrawn|].
  rewrite Hsky. vm_compute. reflexivity.
Defined.


(** Two frames drawn from scene managers that differ in what the shader
    manager and the draw log held: same shapes, same values under the
    uniforms every draw call has set. *)
Lemma RenderScene_frame_independent
    (cosf sinf : float -> float) (unassigned : OBJECT_MATERIAL)
    (tex : list TEXTURE_INFO) (n : Z) (g : GL)
    (sh sh' : ShaderManager) (d d' : list DrawCall) :
  let world := fun (s : ShaderManager) (log : list DrawCall) =>
    {| m_pShaderManager := Some s; m_basicMeshes := all_meshes; m_textureIDs := tex;
       m_loadedTextures := n; m_objectMaterials := [goldMaterial; woodMaterial];
       gl := g; drawn := log |} in
  exists s1 s1' steps steps',
    RenderScene cosf sinf unassigned (world sh d) = Ok tt (world s1 (d ++ steps)) /\
    RenderScene cosf sinf unassigned (world sh' d') = Ok tt (world s1' (d' ++ steps')) /\
    map mesh steps' = map mesh steps /\
    forall k name, In name frame_uniforms ->
      step_uniform steps' k name = step_uniform steps k name.
Proof.
  intros world. unfold world.
  eexists. eexists. eexists. eexists.
  split; [run_scene; rewrite <- !app_assoc; reflexivity|].
  split; [run_scene; rewrite <- !app_assoc; reflexivity|].
  split; [reflexivity|].
  intros k name Hname.
  do 10 (destruct k as [|k];
         [cbn [In frame_uniforms] in Hname;
          repeat (destruct Hname as [<-|Hname]; [reflexivity|]);
          destruct Hname|]).
  reflexivity.
Qed.

(** X13. Frames repeat.  In the prepared state a second [RenderScene] right
    after the first issues the same shapes in the same order, and each draw
    call sees the same matrix, texture flag, sampler index, UV scale and
    material values as the matching draw call of the first frame, whatever
    the shader manager held before the first frame. *)
Theorem RenderScene_twice_same_frame
    (stbi_load : string -> option Image) (cosf sinf : float -> float)
    (unassigned : OBJECT_MATERIAL) (w : World) :
  Prepared stbi_load cosf sinf unassigned w ->
  exists w1 w2 first second,
    RenderScene cosf sinf unassigned w = Ok tt w1 /\
    RenderScene cosf sinf unassigned w1 = Ok tt w2 /\
    drawn w1 = drawn w ++ first /\
    drawn w2 = drawn w1 ++ second /\
    map mesh second = map mesh first /\
    forall k name, In name frame_uniforms ->
      step_uniform second k name = step_uniform first k name.
Proof.
  intros Hprepared. ready_world Hprepared w.
  destruct (RenderScene_frame_independent cosf sinf unassigned tex n g sh sh d d)
    as (s1 & _ & first & _ & Hrun1 & _).
  destruct (RenderScene_frame_independent cosf sinf unassigned tex n g
              sh s1 d (d ++ first))
    as (s1' & s2 & first' & second & Hrun1' & Hrun2 & Hmesh & Hsame).
  cbv zeta in *.
  assert (Hfirst : first' = first).
  { rewrite Hrun1 in Hrun1'. apply Ok_world in Hrun1'.
    apply (f_equal drawn) in Hrun1'. cbn [drawn] in Hrun1'.
    apply app_inv_head in Hrun1'. exact Hrun1'. }
  subst first'.
  eexists. eexists. exists first, second.
  split; [exact Hrun1|]. split; [exact Hrun2|].
  split; [reflexivity|]. split; [reflexivity|].
  split; [exact Hmesh | exact Hsame].
Qed.

Lemma RenderScene_twice_same_frame_witness :
  exists w1 w2 first second,
    RenderScene Sample.cosf Sample.sinf Sample.unassigned Sample.prepared = Ok tt w1 /\
    RenderScene Sample.cosf Sample.sinf Sample.unassigned w1 = Ok tt w2 /\
    drawn w2 = (drawn Sample.prepared ++ first) ++ second /\
    step_uniform second 0 "UVscale" = step_uniform first 0 "UVscale".
Proof.
  destruct (RenderScene_twice_same_frame Sample.stbi_load Sample.cosf Sample.sinf
              Sample.unassigned Sample.prepared Sample_prepared)
    as (w1 & w2 & first & second & Hrun1 & Hrun2 & Hdrawn1 & Hdrawn2 & _ & Hsame).
  exists w1, w2, first, second.
  split; [exact Hrun1|]. split; [exact Hrun2|]. split.
  - rewrite Hdrawn2, Hdrawn1. reflexivity.
  - apply Hsame. simpl. tauto.
Defined.

(** ** Failure paths end to end *)

(** X17. Failed texture loads degrade the picture and stop nothing.  When
    none of the five files decodes to a usable image, [PrepareScene] still
    completes with an empty texture table, and [RenderScene] still issues
    its ten draw calls; the five textured ones are drawn with texturing on
    and the sampler index -1. *)
Theorem RenderScene_without_textures
    (stbi_load : string -> option Image) (cosf sinf : float -> float)
    (unassigned : OBJECT_MATERIAL) (sh : ShaderManager) (g : GL) :
  (forall filename, In filename scene_texture_files ->
     supported stbi_load filename = false) ->
  exists w w',
    PrepareScene stbi_load (SceneManager (Some sh) g) = Ok tt w /\
    m_loadedTextures w = 0 /\
    RenderScene cosf sinf unassigned w = Ok tt w' /\
    length (drawn w') = 10%nat /\
    forall k, In k [0; 1; 2; 4; 6]%nat ->
      step_uniform (drawn w') k "bUseTexture" = Some (UInt 1) /\
      step_uniform (drawn w') k "objectTexture" = Some (USampler2D (-1)).
Proof.
  intros Hfiles.
  assert (Hskip : forall f t p meshes tex n mats g0 d,
            In f scene_texture_files ->
            exists g',
              CreateGLTexture stbi_load f t
                {| m_pShaderManager := p; m_basicMeshes := meshes; m_textureIDs := tex;
                   m_loadedTextures := n; m_objectMaterials := mats; gl := g0;
                   drawn := d |} =
              Ok false
                {| m_pShaderManager := p; m_basicMeshes := meshes; m_textureIDs := tex;
                   m_loadedTextures := n; m_objectMaterials := mats; gl := g';
                   drawn := d |}).
  { intros f t p meshes tex n mats g0 d Hin.
    destruct (CreateGLTexture_skips stbi_load f t p meshes tex n mats g0 d
                (Hfiles f Hin)) as (g' & Hrun & _).
    exists g'. exact Hrun. }
  unfold PrepareScene, LoadSceneTextures, SceneManager.
  unfold mbind, M_bind.
  do 5 match goal with
       | |- context [CreateGLTexture stbi_load ?f ?t
                       {| m_pShaderManager := ?p; m_basicMeshes := ?meshes;
                          m_textureIDs := ?tex; m_loadedTextures := ?n;
                          m_objectMaterials := ?mats; gl := ?g0; drawn := ?d |}] =>
           let g' := fresh "g" in
           let E := fresh "E" in
           destruct (Hskip f t p meshes tex n mats g0 d) as [g' E];
           [simpl; tauto|]; rewrite E; clear E; cbv beta iota
       end.
  match goal with
  | |- exists w w', ?run = Ok tt w /\ _ =>
      let result := eval vm_compute in run in
      match result with
      | Ok _ ?w => exists w
      end
  end.
  eexists.
  split; [vm_compute; reflexivity|].
  split; [reflexivity|].
  split; [run_scene; reflexivity|].
  split; [reflexivity|].
  intros k Hk. cbn [In] in Hk.
  repeat (destruct Hk as [<-|Hk]; [split; reflexivity|]).
  destruct Hk.
Qed.

Lemma RenderScene_without_textures_witness :
  exists w w',
    PrepareScene no_files Sample.constructed = Ok tt w /\
    RenderScene Sample.cosf Sample.sinf Sample.unassigned w = Ok tt w' /\
    step_uniform (drawn w') 0 "objectTexture" = Some (USampler2D (-1)).
Proof.
  destruct (RenderScene_without_textures no_files Sample.cosf Sample.sinf
              Sample.unassigned [] Sample.opengl)
    as (w & w' & Hprepare & _ & Hrender & _ & Hsampler).
  - intros filename _. reflexivity.
  - exists w, w'. split; [exact Hprepare|]. split; [exact Hrender|].
    apply Hsampler. simpl. tauto.
Defined.

(** X18. The NULL test is not made everywhere.  Without a shader manager,
    [SetTransformations], [SetShaderColor], [SetShaderTexture] and
    [SetTextureUVScale] return and change nothing; [SetShaderMaterial] with
    a material list that is not empty, and [SetupSceneLights], dereference
    the NULL pointer. *)
Theorem NULL_shader_manager_guards
    (cosf sinf : float -> float) (unassigned : OBJECT_MATERIAL) (w : World) :
  m_pShaderManager w = None ->
  (forall scaleXYZ x y z positionXYZ,
     SetTransformations cosf sinf scaleXYZ x y z positionXYZ w = Ok tt w) /\
  (forall r g b a, SetShaderColor r g b a w = Ok tt w) /\
  (forall textureTag, SetShaderTexture textureTag w = Ok tt w) /\
  (forall u v, SetTextureUVScale u v w = Ok tt w) /\
  (forall materialTag,
     m_objectMaterials w <> [] ->
     SetShaderMaterial unassigned materialTag w = Undefined) /\
  SetupSceneLights w = Undefined.
Proof.
  intros Hnull.
  destruct w as [p meshes tex n mats g d]; simpl in Hnull; subst p.
  repeat split; try reflexivity.
  intros materialTag Hmats. cbn [m_objectMaterials] in Hmats.
  destruct mats as [|first others]; [congruence|].
  reflexivity.
Qed.

Lemma NULL_shader_manager_guards_witness :
  SetShaderColor F32.one F32.one F32.one F32.one
    (set_pShaderManager None Sample.prepared) =
    Ok tt (set_pShaderManager None Sample.prepared) /\
  SetShaderMaterial Sample.unassigned "wood"
    (set_pShaderManager None Sample.prepared) = Undefined.
Proof.
  destruct (NULL_shader_manager_guards Sample.cosf Sample.sinf Sample.unassigned
              (set_pShaderManager None Sample.prepared) eq_refl)
    as (_ & Hcolor & _ & _ & Hmaterial & _).
  split; [apply Hcolor|]. apply Hmaterial. vm_compute. discriminate.
Defined.
